(** * fast-mcp-pandoc: worker pool, progress callbacks and event streams

    A shallow embedding of [src/worker.py], [src/models.py] and the
    endpoints and generators of [src/server.py], with the properties the
    specification states about them and further properties read off the
    code.

    Conventions.
    - Python [dict] events are values of [json]; [d.get(k)] is [dict_get].
    - [Optional[str]] is [option string]; Python truthiness ([if x]) is
      [truthy]: neither [None] nor the empty string.
    - Exceptions are values of [exn]; [str(e)] is [str].
    - The file system is the set of existing paths.
    - Time is counted in whole seconds ([Z]); float run times are not
      modelled beyond that. *)

From Stdlib Require Import ZArith Lia.
From stdpp Require Import base option list strings gmap.

Open Scope string_scope.
Open Scope Z_scope.
Open Scope list_scope.

(** ** Python values shared by all modules *)

Inductive exn :=
| ValueError (msg : string)
| OSError (msg : string)
| RuntimeError (msg : string)
| KeyError (key : string)
| TimeoutError
| CancelledError
| GeneratorExit.

(** [str(e)] *)
Definition str (e : exn) : string :=
  match e with
  | ValueError m | OSError m | RuntimeError m => m
  | KeyError k => "'" +:+ k +:+ "'"
  | TimeoutError => ""
  | CancelledError => ""
  | GeneratorExit => ""
  end.

(** [isinstance(e, Exception)]: what [except Exception] catches.
    [CancelledError] and [GeneratorExit] derive from [BaseException]. *)
Definition is_Exception (e : exn) : bool :=
  match e with
  | CancelledError | GeneratorExit => false
  | _ => true
  end.

Definition truthy (o : option string) : bool :=
  match o with
  | Some s => negb (String.eqb s "")
  | None => false
  end.

(** The text an f-string prints for an [Optional[str]] field. *)
Definition fmt (o : option string) : string :=
  match o with
  | Some s => s
  | None => "None"
  end.

#[local] Unset Elimination Schemes.
Inductive json :=
| JNull
| JInt (z : Z)
| JStr (s : string)
| JObj (fields : list (string * json)).
#[local] Set Elimination Schemes.

Fixpoint assoc (k : string) (fields : list (string * json)) : option json :=
  match fields with
  | [] => None
  | (k', v) :: rest => if String.eqb k k' then Some v else assoc k rest
  end.

(** [d.get(k)] *)
Definition dict_get (k : string) (d : json) : option json :=
  match d with
  | JObj fields => assoc k fields
  | _ => None
  end.

(** [d.get(k) in names], for string-valued entries. *)
Definition get_in (k : string) (names : list string) (d : json) : bool :=
  match dict_get k d with
  | Some (JStr s) => existsb (String.eqb s) names
  | _ => false
  end.

(** ** models.py *)
Module Models.

Record ConversionRequest := {
  contents : option string;
  input_file : option string;
  input_format : string;
  output_format : string;
  output_file : option string
}.

(** [ConversionProgress(data=d).dict()] and its siblings. *)
Definition ConversionProgress (d : list (string * json)) : json :=
  JObj [("event", JStr "progress"); ("data", JObj d)].
Definition ConversionError (d : list (string * json)) : json :=
  JObj [("event", JStr "error"); ("data", JObj d)].
Definition ConversionComplete (d : list (string * json)) : json :=
  JObj [("event", JStr "complete"); ("data", JObj d)].
Definition ConversionHeartbeat (d : list (string * json)) : json :=
  JObj [("event", JStr "heartbeat"); ("data", JObj d)].

Inductive MCPStatus := CREATED | RUNNING | COMPLETE | ERROR.

(** [MCPStatus] is a [str] enum: its members are these strings. *)
Definition status_value (s : MCPStatus) : string :=
  match s with
  | CREATED => "created"
  | RUNNING => "running"
  | COMPLETE => "complete"
  | ERROR => "error"
  end.

(** [MCPErrorDetail(message=m).dict()] *)
Definition MCPErrorDetail (m : string) : json :=
  JObj [("message", JStr m); ("code", JNull); ("stack", JNull)].

(** [MCPEvent(...).dict()]; omitted keyword arguments are [JNull]. *)
Definition MCPEvent (id : string) (status : MCPStatus) (tool created_at : string)
    (output error runtime : json) : json :=
  JObj [("id", JStr id); ("status", JStr (status_value status));
        ("tool", JStr tool); ("created_at", JStr created_at);
        ("output", output); ("error", error); ("runtime", runtime)].

(** *** The validators of [ConversionRequest] *)

(** The two sets the validators test membership in. *)
Definition supported_formats : list string :=
  ["markdown"; "html"; "pdf"; "docx"; "rst"; "latex"; "epub"; "txt"].
Definition advanced_formats : list string :=
  ["pdf"; "docx"; "rst"; "latex"; "epub"].

(** [values]: the fields validated so far, by name. *)
Definition field_values : Type := gmap string (option string).

(** [validate_content_sources], run for [contents] and for
    [input_file]. *)
Definition validate_content_sources (v : option string) (values : field_values)
    : exn + option string :=
  match values !! "contents" with
  | Some None =>
      match values !! "input_file" with
      | Some None =>
          inl (ValueError "Either 'contents' or 'input_file' must be provided")
      | _ => inr v
      end
  | _ => inr v
  end.

(** [validate_output_file], run for [output_file] also when it is not
    given ([always=True]). *)
Definition validate_output_file (v : option string) (values : field_values)
    : exn + option string :=
  match values !! "output_format" with
  | Some output_format =>
      if bool_decide (output_format ∈ Some <$> advanced_formats)
         && negb (truthy v)
      then inl (ValueError ("output_file is required for " +:+ fmt output_format
                            +:+ " format"))
      else inr v
  | None => inr v
  end.

(** The outcome of validating one field: its value enters [values], or
    its error joins the errors of the fields before it. *)
Definition field_outcome (name : string) (r : exn + option string)
    (acc : field_values * list (string * exn))
    : field_values * list (string * exn) :=
  match r with
  | inr v => (<[name := v]> acc.1, acc.2)
  | inl e => (acc.1, acc.2 ++ [(name, e)])
  end.

Section Validation.
(** [str.lower], and the text [', '.join(supported_formats)] gives for
    the order in which the set is iterated. *)
Variable lower : string -> string.
Variable listing : string.

(** [validate_formats], run for [input_format] and for
    [output_format]. *)
Definition validate_formats (v : string) : exn + string :=
  if negb (bool_decide (lower v ∈ supported_formats))
  then inl (ValueError ("Format '" +:+ v +:+ "' not supported. Supported formats: "
                        +:+ listing))
  else inr (lower v).

(** [ConversionRequest(contents=..., input_file=..., input_format=...,
    output_format=..., output_file=...)]: the fields are validated in
    the order of their declaration, each validator seeing the fields
    that were accepted before it; the errors of all fields are raised
    together. *)
Definition ConversionRequest__init__ (contents input_file : option string)
    (input_format output_format : string) (output_file : option string)
    : list (string * exn) + ConversionRequest :=
  let acc0 : field_values * list (string * exn) := (∅, []) in
  let r1 := validate_content_sources contents acc0.1 in
  let acc1 := field_outcome "contents" r1 acc0 in
  let r2 := validate_content_sources input_file acc1.1 in
  let acc2 := field_outcome "input_file" r2 acc1 in
  let r3 := validate_formats input_format in
  let acc3 := field_outcome "input_format" (sum_map id Some r3) acc2 in
  let r4 := validate_formats output_format in
  let acc4 := field_outcome "output_format" (sum_map id Some r4) acc3 in
  let r5 := validate_output_file output_file acc4.1 in
  let acc5 := field_outcome "output_file" r5 acc4 in
  match r1, r2, r3, r4, r5 with
  | inr contents, inr input_file, inr input_format, inr output_format,
    inr output_file =>
      inr {| contents := contents; input_file := input_file;
             input_format := input_format; output_format := output_format;
             output_file := output_file |}
  | _, _, _, _, _ => inl acc5.2
  end.

End Validation.

(** *** The tool descriptions of the protocol *)

Record MCPToolParameter := {
  p_name : string;
  p_description : string;
  p_type : string;
  p_required : bool;
  p_default : option string;
  p_enum : option (list string)
}.

Record MCPTool := {
  tool_name : string;
  tool_description : string;
  parameters : list MCPToolParameter
}.

Record MCPToolsDiscovery := { tools : list MCPTool }.

End Models.
Import Models.

(** ** worker.py *)
Module Worker.

(** What the execution body does to the outside world, in order. *)
Inductive engine_call :=
| ConvertFile (source_file to : string) (outputfile : option string)
              (extra_args : list string)
| ConvertText (source : option string) (to format : string)
              (extra_args : list string).

(** [ConversionTask]; [CB] is the type of the progress callback. *)
Record ConversionTask (CB : Type) := {
  request : ConversionRequest;
  task_id : string;
  progress_callback : CB
}.
Arguments request {CB} _.
Arguments task_id {CB} _.
Arguments progress_callback {CB} _.

Inductive obs :=
| Callback (task_id : string) (percentage : Z) (message : string)
| Engine (call : engine_call) (ok : bool).

(** The collaborators of the body: [os], [tempfile] and [pypandoc].
    Each may raise; those that touch the disk return the new set of
    existing paths. *)
Record Platform := {
  dirname : string -> string;
  makedirs : string -> gset string -> exn + gset string;
  (** [tempfile.NamedTemporaryFile(mode="w", suffix=s, delete=False)]:
      the name of the file it creates. *)
  NamedTemporaryFile : string -> gset string -> exn + string;
  (** [temp.write(contents)] and the close at the end of [with]. *)
  temp_write : string -> option exn;
  convert_file : string -> string -> option string -> list string ->
                 gset string -> exn + (string * gset string);
  convert_text : option string -> string -> string -> list string ->
                 gset string -> exn + (string * gset string)
}.

Record wstate := { fs : gset string; log : list obs }.

(** State (disk and observations) with exceptions. *)
Definition W (A : Type) : Type := wstate -> (exn + A) * wstate.

Definition ret {A} (a : A) : W A := fun s => (inr a, s).
Definition raise {A} (e : exn) : W A := fun s => (inl e, s).
Definition bind {A B} (m : W A) (k : A -> W B) : W B :=
  fun s => match m s with
           | (inr a, s') => k a s'
           | (inl e, s') => (inl e, s')
           end.
(** [try: m  except Exception as e: h e] *)
Definition try_except {A} (m : W A) (h : exn -> W A) : W A :=
  fun s => match m s with
           | (inl e, s') => if is_Exception e then h e s' else (inl e, s')
           | r => r
           end.
(** [try: m  finally: f] *)
Definition try_finally {A} (m : W A) (f : W unit) : W A :=
  fun s => match m s with
           | (r, s') => match f s' with
                        | (inr _, s'') => (r, s'')
                        | (inl e, s'') => (inl e, s'')
                        end
           end.

Declare Scope worker_scope.
Delimit Scope worker_scope with worker.
Notation "x <- m ;; k" := (bind m (fun x => k))
  (at level 100, m at next level, right associativity) : worker_scope.
Notation "m ;;; k" := (bind m (fun _ => k))
  (at level 100, right associativity) : worker_scope.
Local Open Scope worker_scope.

Definition get_fs : W (gset string) := fun s => (inr (fs s), s).
Definition put_fs (d : gset string) : W unit :=
  fun s => (inr tt, {| fs := d; log := log s |}).
Definition observe (o : obs) : W unit :=
  fun s => (inr tt, {| fs := fs s; log := log s ++ [o] |}).
Definition when (b : bool) (m : W unit) : W unit := if b then m else ret tt.

(** [os.path.exists(p)] *)
Definition exists_ (p : string) : W bool :=
  d <- get_fs ;; ret (bool_decide (p ∈ d)).
(** [os.unlink(p)] *)
Definition unlink (p : string) : W unit :=
  d <- get_fs ;;
  if bool_decide (p ∈ d) then put_fs (d ∖ {[p]})
  else raise (OSError ("No such file or directory: " +:+ p)).

Section Body.
Variable P : Platform.

Definition os_makedirs (p : string) : W unit :=
  d <- get_fs ;;
  match makedirs P p d with
  | inr d' => put_fs d'
  | inl e => raise e
  end.

(** [with tempfile.NamedTemporaryFile(...) as temp:
       temp.write(contents); temp_path = temp.name]
    The file is on disk as soon as it is created, and, being opened
    with [delete=False], stays there when the block is left. *)
Definition write_temp (suffix contents : string) : W string :=
  d <- get_fs ;;
  match NamedTemporaryFile P suffix d with
  | inl e => raise e
  | inr name =>
      put_fs ({[name]} ∪ d) ;;;
      match temp_write P contents with
      | Some e => raise e
      | None => ret name
      end
  end.

Definition run_engine (c : engine_call) : W string :=
  d <- get_fs ;;
  match
    match c with
    | ConvertFile src to out args => convert_file P src to out args d
    | ConvertText src to format args => convert_text P src to format args d
    end
  with
  | inr (result, d') => put_fs d' ;;; observe (Engine c true) ;;; ret result
  | inl e => observe (Engine c false) ;;; raise e
  end.

Definition pypandoc_convert_file (src to : string) (out : option string)
    (args : list string) : W string :=
  run_engine (ConvertFile src to out args).
Definition pypandoc_convert_text (src : option string) (to format : string)
    (args : list string) : W string :=
  run_engine (ConvertText src to format args).

(** [extra_args = []], extended with the PDF options when the
    output format is ["pdf"]. *)
Definition extra_args_for (request : ConversionRequest) : list string :=
  if String.eqb (output_format request) "pdf"
  then ["--pdf-engine=xelatex"; "-V"; "geometry:margin=1in"]
  else [].

(** The [try] block of [WorkerPool._process_conversion].  The
    callback is taken to return; the body never looks at what it
    did, so an invocation is recorded as an observation, and the
    server module replays the recorded invocations on the callback
    the task carries. *)
Definition conversion_body (request : ConversionRequest) (task_id : string)
    : W string :=
  let progress_callback := fun id percentage message =>
    observe (Callback id percentage message) in
  progress_callback task_id 0 "Starting conversion process" ;;;
  let extra_args := extra_args_for request in
  progress_callback task_id 25 "Preparing document for conversion" ;;;
  result <-
    (if truthy (input_file request) && truthy (output_file request) then
       found <- exists_ (fmt (input_file request)) ;;
       when (negb found)
         (raise (ValueError ("Input file not found: "
                             +:+ fmt (input_file request)))) ;;;
       let output_dir := dirname P (fmt (output_file request)) in
       out_found <- exists_ output_dir ;;
       when (negb (String.eqb output_dir "") && negb out_found)
         (os_makedirs output_dir) ;;;
       progress_callback task_id 50
         ("Converting " +:+ fmt (input_file request) +:+ " to "
          +:+ output_format request) ;;;
       pypandoc_convert_file (fmt (input_file request))
         (output_format request) (output_file request) extra_args ;;;
       progress_callback task_id 75 "Finalizing conversion" ;;;
       ret ("Content successfully converted and saved to: "
            +:+ fmt (output_file request))
     else if truthy (input_file request) then
       found <- exists_ (fmt (input_file request)) ;;
       when (negb found)
         (raise (ValueError ("Input file not found: "
                             +:+ fmt (input_file request)))) ;;;
       progress_callback task_id 50
         ("Converting " +:+ fmt (input_file request) +:+ " to "
          +:+ output_format request) ;;;
       result <- pypandoc_convert_file (fmt (input_file request))
                   (output_format request) None extra_args ;;
       progress_callback task_id 75 "Finalizing conversion" ;;;
       ret result
     else if truthy (contents request) && truthy (output_file request) then
       temp_path <- write_temp ("." +:+ input_format request)
                      (fmt (contents request)) ;;
       try_finally
         (let output_dir := dirname P (fmt (output_file request)) in
          out_found <- exists_ output_dir ;;
          when (negb (String.eqb output_dir "") && negb out_found)
            (os_makedirs output_dir) ;;;
          progress_callback task_id 50
            ("Converting content to " +:+ output_format request) ;;;
          pypandoc_convert_file temp_path (output_format request)
            (output_file request) extra_args ;;;
          progress_callback task_id 75 "Finalizing conversion" ;;;
          ret ("Content successfully converted and saved to: "
               +:+ fmt (output_file request)))
         (still <- exists_ temp_path ;;
          when still (unlink temp_path))
     else
       progress_callback task_id 50
         ("Converting content to " +:+ output_format request) ;;;
       result <- pypandoc_convert_text (contents request)
                   (output_format request) (input_format request)
                   extra_args ;;
       progress_callback task_id 75 "Finalizing conversion" ;;;
       ret result) ;;
  progress_callback task_id 100 "Conversion complete" ;;;
  ret result.

(** [WorkerPool._process_conversion] *)
Definition _process_conversion {CB} (task : ConversionTask CB) : W string :=
  let request := request task in
  let task_id := task_id task in
  let progress_callback := fun id percentage message =>
    observe (Callback id percentage message) in
  try_except
    (conversion_body request task_id)
    (fun e =>
       progress_callback task_id (-1) ("Error: " +:+ str e) ;;;
       raise (ValueError ("Error during conversion: " +:+ str e))).

End Body.

(** A future of the executor: pending, or resolved to a result or an
    exception. *)
Definition future : Type := option (exn + string).

Record WorkerPool := {
  max_workers : nat;
  tasks : gmap string future
}.

(** [WorkerPool.__init__(max_workers)] *)
Definition __init__ (max_workers : nat) : WorkerPool :=
  {| max_workers := max_workers; tasks := ∅ |}.

(** [worker_pool = WorkerPool()], with the default [max_workers=4]. *)
Definition worker_pool : WorkerPool := __init__ 4.

(** [WorkerPool.submit_task]: the pool side of a submission. *)
Definition submit_task {CB} (task : ConversionTask CB) (pool : WorkerPool)
    : WorkerPool :=
  {| max_workers := max_workers pool;
     tasks := <[task_id task := None]> (tasks pool) |}.

(** [WorkerPool._task_done] *)
Definition _task_done (task_id : string) (pool : WorkerPool) : WorkerPool :=
  if bool_decide (task_id ∈ dom (tasks pool))
  then {| max_workers := max_workers pool;
          tasks := delete task_id (tasks pool) |}
  else pool.

Definition engine_calls (l : list obs) : list engine_call :=
  omap (fun o => match o with Engine c _ => Some c | _ => None end) l.

End Worker.

(** ** server.py: the connection registry and the two event streams *)
Module Server.
Import Worker.

Inductive reg_op := Inserted (key : string) | Removed (key : string).

(** What every execution context of the process sees: the clock and
    the module-level dict [active_connections].  A value of the dict
    is an [asyncio.Queue], given by the events waiting in it; the
    stream's local [queue] is an alias of its entry.  [history] records
    each [d[k] = q] and each [del d[k]], in order. *)
Record shared := {
  now : Z;
  active_connections : gmap string (list json);
  history : list reg_op
}.

(** [Callable[[str, int, str], None]], acting on the shared state. *)
Definition callback : Type := string -> Z -> string -> shared -> exn + shared.

(** [k in active_connections] *)
Definition contains (k : string) (sh : shared) : bool :=
  bool_decide (k ∈ dom (active_connections sh)).

(** [active_connections[k]] *)
Definition getitem (k : string) (sh : shared) : exn + list json :=
  match active_connections sh !! k with
  | Some q => inr q
  | None => inl (KeyError k)
  end.

(** [active_connections[k] = q] *)
Definition setitem (k : string) (q : list json) (sh : shared) : shared :=
  {| now := now sh;
     active_connections := <[k := q]> (active_connections sh);
     history := history sh ++ [Inserted k] |}.

(** [del active_connections[k]] *)
Definition delitem (k : string) (sh : shared) : exn + shared :=
  match active_connections sh !! k with
  | Some _ => inr {| now := now sh;
                     active_connections := delete k (active_connections sh);
                     history := history sh ++ [Removed k] |}
  | None => inl (KeyError k)
  end.

(** [active_connections[k].put(e)], handed to the event loop by
    [run_coroutine_threadsafe]; the hand-over is taken as one step. *)
Definition queue_put (k : string) (e : json) (sh : shared) : exn + shared :=
  match getitem k sh with
  | inr q => inr {| now := now sh;
                    active_connections := <[k := q ++ [e]]> (active_connections sh);
                    history := history sh |}
  | inl x => inl x
  end.

(** Truth value of a Python object: an empty dict is false. *)
Definition json_truthy (j : json) : bool :=
  match j with
  | JNull => false
  | JInt z => negb (z =? 0)
  | JStr s => negb (String.eqb s "")
  | JObj fields => match fields with [] => false | _ => true end
  end.

(** [progress_callback] of [event_generator]. *)
Definition progress_callback : callback :=
  fun task_id percentage message sh =>
    let event_data :=
      if percentage =? 100 then
        ConversionComplete [("message", JStr "Conversion complete");
                            ("result", JStr message)]
      else if percentage =? -1 then
        ConversionError [("message", JStr ("Error during conversion: " +:+ message));
                         ("error", JStr message)]
      else
        ConversionProgress [("percentage", JInt percentage);
                            ("message", JStr message)] in
    if json_truthy event_data && contains task_id sh
    then queue_put task_id event_data sh
    else inr sh.

(** [progress_callback] of [mcp_convert_generator]; [event_id],
    [created_at] and [start_time] are captured from the generator. *)
Definition mcp_progress_callback (event_id created_at : string)
    (start_time : Z) : callback :=
  fun task_id percentage message sh =>
    let event_data :=
      if percentage =? 100 then
        MCPEvent event_id COMPLETE "convert-contents" created_at
          (JStr message) JNull (JInt (now sh - start_time))
      else if percentage =? -1 then
        let error_detail := MCPErrorDetail message in
        MCPEvent event_id ERROR "convert-contents" created_at
          JNull error_detail (JInt (now sh - start_time))
      else
        MCPEvent event_id (if 0 <? percentage then RUNNING else CREATED)
          "convert-contents" created_at
          (JObj [("percentage", JInt percentage); ("message", JStr message)])
          JNull JNull in
    if json_truthy event_data && contains event_id sh
    then queue_put event_id event_data sh
    else inr sh.

(** The invocations of its callback a worker thread will make: each
    with the seconds that pass before it, counted from the previous
    one (from the submission for the first). *)
Definition timeline : Type := list (Z * (Z * string)).

Record world := {
  sh : shared;
  pool : WorkerPool;
  (** [false] once the executor has been shut down *)
  pool_open : bool;
  (** the task of this stream, from its submission on *)
  running : option (ConversionTask callback);
  script : timeline
}.

Definition with_sh (s : shared) (w : world) : world :=
  {| sh := s; pool := pool w; pool_open := pool_open w;
     running := running w; script := script w |}.
Definition with_script (l : timeline) (w : world) : world :=
  {| sh := sh w; pool := pool w; pool_open := pool_open w;
     running := running w; script := l |}.
Definition advance (d : Z) (s : shared) : shared :=
  {| now := now s + d; active_connections := active_connections s;
     history := history s |}.

(** The worker thread invokes the callback of its task. *)
Definition fire (c : Z * string) (w : world) : shared :=
  match running w with
  | Some task =>
      match Worker.progress_callback task (task_id task) (fst c) (snd c) (sh w) with
      | inr s => s
      | inl _ => sh w
      end
  | None => sh w
  end.

(** [queue.get_nowait()] on the queue registered under [k]. *)
Definition queue_pop (k : string) (s : shared) : option (json * shared) :=
  match active_connections s !! k with
  | Some (e :: q) =>
      Some (e, {| now := now s;
                  active_connections := <[k := q]> (active_connections s);
                  history := history s |})
  | _ => None
  end.

(** [asyncio.wait_for(queue.get(), timeout)] seen from outside: a
    waiting event is returned at once; otherwise the worker thread
    goes on until it has put an event or [timeout] seconds are over. *)
Fixpoint await_queue (k : string) (l : timeline) (timeout : Z) (w : world)
    : option json * world :=
  match queue_pop k (sh w) with
  | Some (e, s) => (Some e, with_script l (with_sh s w))
  | None =>
      match l with
      | [] => (None, with_script [] (with_sh (advance timeout (sh w)) w))
      | (d, c) :: rest =>
          if d <? timeout
          then await_queue k rest (timeout - d)
                 (with_sh (fire c (with_sh (advance d (sh w)) w)) w)
          else (None, with_script ((d - timeout, c) :: rest)
                        (with_sh (advance timeout (sh w)) w))
      end
  end.

(** *** Generators

    A generator runs against the world, emits time-stamped events and
    is left by a return, by an exception or by the consumer going away.
    [closing = Some n]: the consumer disconnects while the generator is
    suspended for the [n]-th time (counting from 0) at a [yield] or in
    an [await] of the queue.  At a [yield] that closes the generator
    ([GeneratorExit]), in an [await] it cancels the task
    ([CancelledError]). *)
Record gstate := {
  wd : world;
  closing : option nat;
  out : list (Z * json)
}.

Inductive res (A : Type) :=
| Ok (a : A)
| Exc (e : exn)
| Hung.   (* the loop is still running when the fuel is used up *)
Arguments Ok {A} _.
Arguments Exc {A} _.
Arguments Hung {A}.

Definition G (A : Type) : Type := gstate -> res A * gstate.

Definition gret {A} (a : A) : G A := fun st => (Ok a, st).
Definition graise {A} (e : exn) : G A := fun st => (Exc e, st).
Definition gbind {A B} (m : G A) (k : A -> G B) : G B :=
  fun st => match m st with
            | (Ok a, st') => k a st'
            | (Exc e, st') => (Exc e, st')
            | (Hung, st') => (Hung, st')
            end.
(** [try: m  except E as e: h e], [catches] deciding [isinstance(e, E)] *)
Definition gtry_except {A} (catches : exn -> bool) (m : G A) (h : exn -> G A)
    : G A :=
  fun st => match m st with
            | (Exc e, st') => if catches e then h e st' else (Exc e, st')
            | r => r
            end.
(** [try: m  finally: f] *)
Definition gtry_finally {A} (m : G A) (f : G unit) : G A :=
  fun st => match m st with
            | (Hung, st') => (Hung, st')
            | (r, st') => match f st' with
                          | (Ok _, st'') => (r, st'')
                          | (Exc e, st'') => (Exc e, st'')
                          | (Hung, st'') => (Hung, st'')
                          end
            end.

Declare Scope gen_scope.
Delimit Scope gen_scope with gen.
Notation "x <- m ;; k" := (gbind m (fun x => k))
  (at level 100, m at next level, right associativity) : gen_scope.
Notation "m ;;; k" := (gbind m (fun _ => k))
  (at level 100, right associativity) : gen_scope.
Local Open Scope gen_scope.

Definition is_TimeoutError (e : exn) : bool :=
  match e with TimeoutError => true | _ => false end.

Definition get_shared : G shared := fun st => (Ok (sh (wd st)), st).
Definition set_world (w : world) (st : gstate) : gstate :=
  {| wd := w; closing := closing st; out := out st |}.
Definition update_shared (f : shared -> exn + shared) : G unit :=
  fun st => match f (sh (wd st)) with
            | inr s => (Ok tt, set_world (with_sh s (wd st)) st)
            | inl e => (Exc e, st)
            end.
Definition gwhen (b : bool) (m : G unit) : G unit := if b then m else gret tt.

(** [yield json.dumps(e)]; the serialised text is identified with [e]. *)
Definition yield (e : json) : G unit :=
  fun st =>
    let emitted := out st ++ [(now (sh (wd st)), e)] in
    match closing st with
    | Some O => (Exc GeneratorExit,
                 {| wd := wd st; closing := None; out := emitted |})
    | Some (S n) => (Ok tt, {| wd := wd st; closing := Some n; out := emitted |})
    | None => (Ok tt, {| wd := wd st; closing := None; out := emitted |})
    end.

(** [await asyncio.wait_for(queue.get(), timeout=t)] for the queue
    registered under [k]. *)
Definition wait_for_queue_get (k : string) (t : Z) : G json :=
  fun st =>
    match closing st with
    | Some O => (Exc CancelledError,
                 {| wd := wd st; closing := None; out := out st |})
    | c =>
        let st1 := {| wd := wd st; closing := pred <$> c; out := out st |} in
        match await_queue k (script (wd st)) t (wd st) with
        | (Some e, w) => (Ok e, set_world w st1)
        | (None, w) => (Exc TimeoutError, set_world w st1)
        end
    end.

(** [while True: s = body s], left by [break] ([inr]). *)
Fixpoint while {S R} (fuel : nat) (body : S -> G (S + R)) (s : S) : G R :=
  match fuel with
  | O => fun st => (Hung, st)
  | Datatypes.S n =>
      r <- body s ;;
      match r with
      | inl s' => while n body s'
      | inr v => gret v
      end
  end.

Section Streams.
(** What the thread of the pool does with a submitted task, and the
    ISO text of a clock reading. *)
Variable run_worker : ConversionTask callback -> timeline.
Variable isoformat : Z -> string.

(** [await worker_pool.submit_task(task)] *)
Definition submit_task (task : ConversionTask callback) : G unit :=
  fun st =>
    let w := wd st in
    if pool_open w then
      (Ok tt, set_world {| sh := sh w;
                           pool := Worker.submit_task task (pool w);
                           pool_open := true;
                           running := Some task;
                           script := run_worker task |} st)
    else (Exc (RuntimeError "cannot schedule new futures after shutdown"), st).

(** One turn of the [while True] of [event_generator]. *)
Definition stream_iteration (task_id : string) (heartbeat_timer : Z)
    : G (Z + unit) :=
  gtry_except is_TimeoutError
    (event_data <- wait_for_queue_get task_id 15 ;;
     yield event_data ;;;
     if get_in "event" ["complete"; "error"] event_data
     then gret (inr tt)
     else gret (inl heartbeat_timer))
    (fun _ =>
       s <- get_shared ;;
       let heartbeat_data :=
         ConversionHeartbeat [("timestamp", JStr (isoformat (now s)))] in
       yield heartbeat_data ;;;
       let heartbeat_timer := heartbeat_timer + 15 in
       if 300 <=? heartbeat_timer then
         yield (ConversionError
                  [("message",
                    JStr "Conversion timed out after 5 minutes of inactivity");
                   ("error", JStr "timeout")]) ;;;
         gret (inr tt)
       else gret (inl heartbeat_timer)).

(** [event_generator] of [stream_conversion] *)
Definition event_generator (task_id : string)
    (conversion_request : ConversionRequest) (fuel : nat) : G unit :=
  gtry_finally
    (gtry_except is_Exception
       (yield (ConversionProgress
                 [("percentage", JInt 0);
                  ("message", JStr "Starting conversion...")]) ;;;
        let task := {| request := conversion_request;
                       task_id := task_id;
                       Worker.progress_callback := progress_callback |} in
        submit_task task ;;;
        let heartbeat_timer := 0 in
        while fuel (stream_iteration task_id) heartbeat_timer)
       (fun e =>
          yield (ConversionError
                   [("message", JStr ("Error during conversion: " +:+ str e));
                    ("error", JStr (str e))])))
    (s <- get_shared ;;
     gwhen (contains task_id s) (update_shared (delitem task_id))).

(** [stream_conversion]: the queue is registered under the fresh
    [task_id], then the response iterates [event_generator]. *)
Definition stream_conversion (task_id : string)
    (conversion_request : ConversionRequest) (fuel : nat) : G unit :=
  update_shared (fun s => inr (setitem task_id [] s)) ;;;
  event_generator task_id conversion_request fuel.

(** One turn of the [while True] of [mcp_convert_generator]. *)
Definition mcp_iteration (event_id : string) (_ : unit) : G (unit + unit) :=
  event_data <- wait_for_queue_get event_id 60 ;;
  yield event_data ;;;
  if get_in "status" [status_value COMPLETE; status_value ERROR] event_data
  then gret (inr tt)
  else gret (inl tt).

(** [mcp_convert_generator] *)
Definition mcp_convert_generator (event_id : string)
    (conversion_request : ConversionRequest) (fuel : nat) : G unit :=
  s0 <- get_shared ;;
  let start_time := now s0 in
  let created_at := isoformat (now s0) in
  gtry_finally
    (gtry_except is_Exception
       (update_shared (fun s => inr (setitem event_id [] s)) ;;;
        let progress_callback :=
          mcp_progress_callback event_id created_at start_time in
        let initial_event :=
          MCPEvent event_id CREATED "convert-contents" created_at
            (JObj [("percentage", JInt 0);
                   ("message", JStr "Starting conversion")])
            JNull JNull in
        yield initial_event ;;;
        let task := {| request := conversion_request;
                       task_id := event_id;
                       Worker.progress_callback := progress_callback |} in
        submit_task task ;;;
        gtry_except is_TimeoutError
          (while fuel (mcp_iteration event_id) tt)
          (fun _ =>
             s <- get_shared ;;
             let error_detail :=
               MCPErrorDetail "Conversion timed out after 60 seconds" in
             let timeout_event :=
               MCPEvent event_id ERROR "convert-contents" created_at
                 JNull error_detail (JInt (now s - start_time)) in
             yield timeout_event))
       (fun e =>
          s <- get_shared ;;
          let error_detail := MCPErrorDetail (str e) in
          let error_event :=
            MCPEvent event_id ERROR "convert-contents" created_at
              JNull error_detail (JInt (now s - start_time)) in
          yield error_event))
    (s <- get_shared ;;
     gwhen (contains event_id s) (update_shared (delitem event_id))).

End Streams.

(** *** The buffered endpoint *)

(** [JSONResponse(status_code=..., content=...)]; the status is 200
    unless given. *)
Record JSONResponse := { status_code : Z; content : json }.

(** [result_future.done()] *)
Definition done (f : future) : bool :=
  match f with Some _ => true | None => false end.

(** [progress_callback] of [convert_contents], acting on the
    [result_future] it has captured. *)
Definition convert_progress_callback (task_id : string) (percentage : Z)
    (message : string) (result_future : future) : future :=
  if percentage =? 100 then
    if negb (done result_future) then Some (inr message) else result_future
  else if percentage =? -1 then
    if negb (done result_future) then Some (inl (ValueError message))
    else result_future
  else result_future.

(** The invocations of the callback a run has made, applied in order. *)
Definition resolve (l : list obs) (result_future : future) : future :=
  foldl (fun f o => match o with
                    | Callback id p m => convert_progress_callback id p m f
                    | Engine _ _ => f
                    end) result_future l.

(** [convert_contents].  The thread of the pool runs the body on the
    disk [d0]; what it does to [result_future] is taken to reach the
    handler that awaits it.  The outcome is the response, an exception
    that leaves the handler, or nothing as long as the future stays
    pending. *)
Definition convert_contents (P : Platform) (task_id : string)
    (request : ConversionRequest) (pool_open : bool) (pool : WorkerPool)
    (d0 : gset string)
    : option (exn + JSONResponse) * WorkerPool * gset string :=
  let result_future : future := None in
  let task := {| request := request; task_id := task_id;
                 Worker.progress_callback := convert_progress_callback |} in
  let '(awaited, pool, d) :=
    if pool_open then
      let run := _process_conversion P task {| fs := d0; log := [] |} in
      (resolve (log (snd run)) result_future,
       _task_done task_id (Worker.submit_task task pool),
       fs (snd run))
    else
      (Some (inl (RuntimeError "cannot schedule new futures after shutdown")),
       pool, d0) in
  match awaited with
  | Some (inr result) =>
      (Some (inr {| status_code := 200;
                    content := JObj [("status", JStr "success");
                                     ("result", JStr result)] |}), pool, d)
  | Some (inl e) =>
      if is_Exception e then
        (Some (inr {| status_code := 500;
                      content := JObj [("status", JStr "error");
                                       ("message", JStr (str e))] |}), pool, d)
      else (Some (inl e), pool, d)
  | None => (None, pool, d)
  end.

(** *** The protocol endpoint *)

(** The local values of [mcp_tool_discovery_generator]. *)
Definition convert_tool_params : list MCPToolParameter :=
  [ {| p_name := "contents";
       p_description := "Der zu konvertierende Inhalt";
       p_type := "string"; p_required := true;
       p_default := None; p_enum := None |};
    {| p_name := "input_format";
       p_description := "Das Quellformat des Inhalts";
       p_type := "string"; p_required := false;
       p_default := Some "markdown";
       p_enum := Some ["markdown"; "html"; "txt"; "rst"] |};
    {| p_name := "output_format";
       p_description := "Das gewünschte Zielformat";
       p_type := "string"; p_required := false;
       p_default := Some "html";
       p_enum := Some ["markdown"; "html"; "pdf"; "docx"; "rst"; "latex";
                       "epub"; "txt"] |};
    {| p_name := "output_file";
       p_description :=
         "Pfad zur Ausgabedatei (erforderlich für pdf, docx, rst, latex, epub)";
       p_type := "string"; p_required := false;
       p_default := None; p_enum := None |} ].

Definition convert_tool : MCPTool :=
  {| tool_name := "convert-contents";
     tool_description :=
       "Konvertiert Dokumentinhalte zwischen verschiedenen Formaten mit Pandoc";
     parameters := convert_tool_params |}.

Definition tools_discovery : MCPToolsDiscovery := {| tools := [convert_tool] |}.

(** [x or d] for an [Optional[str]] [x] *)
Definition or_else (x : option string) (d : string) : string :=
  if truthy x then fmt x else d.

Section Protocol.
Variable run_worker : ConversionTask callback -> timeline.
Variable isoformat : Z -> string.
Variable lower : string -> string.
Variable listing : string.
(** [MCPToolsDiscovery.dict] *)
Variable discovery_dict : MCPToolsDiscovery -> json.

(** [mcp_tool_discovery_generator] *)
Definition mcp_tool_discovery_generator : G unit :=
  yield (JObj [("type", JStr "discovery");
               ("data", discovery_dict tools_discovery)]).

(** [mcp_error_generator]; [event_id] is the identifier it draws. *)
Definition mcp_error_generator (event_id error_message : string) : G unit :=
  s <- get_shared ;;
  let created_at := isoformat (now s) in
  let error_detail := MCPErrorDetail error_message in
  let error_event :=
    MCPEvent event_id ERROR "" created_at JNull error_detail JNull in
  yield error_event.

(** [mcp_sse_endpoint]: the generator the response iterates, or the
    validation errors the construction of the request raises.
    [event_id] is the identifier the chosen generator draws. *)
Definition mcp_sse_endpoint (event_id : string) (fuel : nat)
    (tool contents input_format output_format output_file : option string)
    : list (string * exn) + G unit :=
  if negb (truthy tool) then inr mcp_tool_discovery_generator
  else if bool_decide (tool = Some "convert-contents") then
    match ConversionRequest__init__ lower listing contents None
            (or_else input_format "markdown") (or_else output_format "html")
            output_file with
    | inr conversion_request =>
        inr (mcp_convert_generator run_worker isoformat event_id
               conversion_request fuel)
    | inl errors => inl errors
    end
  else inr (mcp_error_generator event_id ("Unknown tool: " +:+ fmt tool)).

End Protocol.

End Server.

Import Worker Server.

(** * Vocabulary of the properties *)

(** ** The execution body *)

(** A task starts on the disk [d0] with nothing observed yet. *)
Definition fresh (d0 : gset string) : wstate := {| fs := d0; log := [] |}.

(** The four modes, selected in the order the claim gives. *)
Inductive mode := FileToFile | FileToString | StringToFile | StringToString.

Definition select_mode (request : ConversionRequest) : mode :=
  if truthy (input_file request) && truthy (output_file request) then FileToFile
  else if truthy (input_file request) then FileToString
  else if truthy (contents request) && truthy (output_file request) then StringToFile
  else StringToString.

(** The engine call each mode makes. *)
Definition mode_call (P : Platform) (request : ConversionRequest)
    (d0 : gset string) (m : mode) (c : engine_call) : Prop :=
  match m with
  | FileToFile =>
      c = ConvertFile (fmt (input_file request)) (output_format request)
            (output_file request) (extra_args_for request)
  | FileToString =>
      c = ConvertFile (fmt (input_file request)) (output_format request)
            None (extra_args_for request)
  | StringToFile =>
      ∃ temp_path,
        NamedTemporaryFile P ("." +:+ input_format request) d0 = inr temp_path
        ∧ c = ConvertFile temp_path (output_format request)
                (output_file request) (extra_args_for request)
  | StringToString =>
      c = ConvertText (contents request) (output_format request)
            (input_format request) (extra_args_for request)
  end.

(** ** The registry *)

(** The events waiting under [k]; none when [k] is not registered. *)
Definition queue (k : string) (s : shared) : list json :=
  default [] (active_connections s !! k).

Definition push (k : string) (e : json) (s : shared) : shared :=
  {| now := now s;
     active_connections := <[k := queue k s ++ [e]]> (active_connections s);
     history := history s |}.

(** [s'] differs from [s] at most in the clock and in the content of the
    queue of [k]: same insertions and removals, same other entries, [k]
    registered in both or in neither. *)
Definition same_shape (k : string) (s s' : shared) : Prop :=
  history s' = history s
  ∧ (∀ k', k' ≠ k → active_connections s' !! k' = active_connections s !! k')
  ∧ (is_Some (active_connections s' !! k) ↔ is_Some (active_connections s !! k)).

(** The worker thread of [w] does nothing, or puts one event satisfying
    [Q] into the registered queue of [k]. *)
Definition fire_ok (Q : json → Prop) (k : string) (w : world) : Prop :=
  ∀ c s, fire c (with_sh s w) = s
         ∨ ∃ e, Q e ∧ is_Some (active_connections s !! k)
                ∧ fire c (with_sh s w) = push k e s.

(** What is still to come for the stream of [k]: waiting events and
    invocations the worker has not made yet. *)
Definition measure (k : string) (st : gstate) : nat :=
  length (queue k (sh (wd st))) + length (script (wd st)).

(** ** Events of the plain stream *)

(** [event_data.get("event") in ["complete", "error"]] *)
Definition terminal (e : json) : bool := get_in "event" ["complete"; "error"] e.

Definition is_heartbeat (e : json) : bool := get_in "event" ["heartbeat"] e.

Definition initial_progress : json :=
  ConversionProgress [("percentage", JInt 0);
                      ("message", JStr "Starting conversion...")].

Definition heartbeat_at (isoformat : Z → string) (t : Z) : json :=
  ConversionHeartbeat [("timestamp", JStr (isoformat t))].

Definition inactivity_error : json :=
  ConversionError
    [("message", JStr "Conversion timed out after 5 minutes of inactivity");
     ("error", JStr "timeout")].

(** The event of the [except Exception] clause of [event_generator]. *)
Definition generator_error (e : exn) : json :=
  ConversionError [("message", JStr ("Error during conversion: " +:+ str e));
                   ("error", JStr (str e))].

Definition pool_shut_down : exn :=
  RuntimeError "cannot schedule new futures after shutdown".

(** The event [progress_callback] builds. *)
Definition plain_event_data (percentage : Z) (message : string) : json :=
  if percentage =? 100 then
    ConversionComplete [("message", JStr "Conversion complete");
                        ("result", JStr message)]
  else if percentage =? -1 then
    ConversionError [("message", JStr ("Error during conversion: " +:+ message));
                     ("error", JStr message)]
  else
    ConversionProgress [("percentage", JInt percentage);
                        ("message", JStr message)].

Definition worker_event (e : json) : Prop :=
  ∃ p m, e = plain_event_data p m.

(** The task [event_generator] submits. *)
Definition stream_task (id : string) (rq : ConversionRequest)
    : ConversionTask callback :=
  {| request := rq; task_id := id; Worker.progress_callback := progress_callback |}.

(** The [finally] clause of both generators. *)
Definition finalizer (id : string) : G unit :=
  gbind get_shared (fun s => gwhen (contains id s) (update_shared (delitem id))).

(** ** Shapes of emitted sequences *)

(** No event but possibly the last is terminal. *)
Definition quiet_until_last (l : list (Z * json)) : Prop :=
  ∃ pre post, l = pre ++ post
              ∧ Forall (λ x, terminal (snd x) = false) pre
              ∧ (length post ≤ 1)%nat.

(** Non-terminal events, then exactly one terminal event. *)
Definition ends_with_single_terminal (t : json → bool) (l : list (Z * json))
    : Prop :=
  ∃ pre x, l = pre ++ [x]
           ∧ Forall (λ y, t (snd y) = false) pre
           ∧ t (snd x) = true.

Definition heartbeats (l : list (Z * json)) : nat :=
  length (List.filter (fun x => is_heartbeat (snd x)) l).

(** What the loop of the plain stream may emit from a turn on, [k] waits
    having timed out so far: events of the worker up to a terminal one,
    heartbeats in between, and with the twentieth heartbeat the
    inactivity error. *)
Inductive plain_trace (Q : json → Prop) (iso : Z → string)
  : nat → list (Z * json) → Prop :=
| pt_terminal k t e :
    Q e → terminal e = true → plain_trace Q iso k [(t, e)]
| pt_event k t e rest :
    Q e → terminal e = false → plain_trace Q iso k rest →
    plain_trace Q iso k ((t, e) :: rest)
| pt_heartbeat k t rest :
    (S k < 20)%nat → plain_trace Q iso (S k) rest →
    plain_trace Q iso k ((t, heartbeat_at iso t) :: rest)
| pt_timeout t :
    plain_trace Q iso 19 [(t, heartbeat_at iso t); (t, inactivity_error)].

(** ** Events of the protocol-wrapped stream *)

(** [event_data.get("status") in [MCPStatus.COMPLETE, MCPStatus.ERROR]] *)
Definition mcp_terminal (e : json) : bool :=
  get_in "status" [status_value COMPLETE; status_value ERROR] e.

(** The event [mcp_progress_callback] builds at clock reading [t]. *)
Definition mcp_event_data (id created_at : string) (start_time t p : Z)
    (m : string) : json :=
  if p =? 100 then
    MCPEvent id COMPLETE "convert-contents" created_at
      (JStr m) JNull (JInt (t - start_time))
  else if p =? -1 then
    MCPEvent id ERROR "convert-contents" created_at
      JNull (MCPErrorDetail m) (JInt (t - start_time))
  else
    MCPEvent id (if 0 <? p then RUNNING else CREATED) "convert-contents"
      created_at (JObj [("percentage", JInt p); ("message", JStr m)])
      JNull JNull.

Definition mcp_initial_event (id created_at : string) : json :=
  MCPEvent id CREATED "convert-contents" created_at
    (JObj [("percentage", JInt 0); ("message", JStr "Starting conversion")])
    JNull JNull.

Definition mcp_error_event (id created_at : string) (start_time t : Z)
    (message : string) : json :=
  MCPEvent id ERROR "convert-contents" created_at
    JNull (MCPErrorDetail message) (JInt (t - start_time)).

Definition mcp_timeout_event (id created_at : string) (start_time t : Z) : json :=
  mcp_error_event id created_at start_time t
    "Conversion timed out after 60 seconds".

(** The task [mcp_convert_generator] submits. *)
Definition mcp_task (id : string) (rq : ConversionRequest) (created_at : string)
    (start_time : Z) : ConversionTask callback :=
  {| request := rq; task_id := id;
     Worker.progress_callback := mcp_progress_callback id created_at start_time |}.

(** What the protocol-wrapped stream emits after its first event when the
    worker behaves as [l], the last emission having been at [t]: every
    wait has 60 seconds of its own. *)
Fixpoint mcp_expected (id created_at : string) (start_time t : Z) (l : timeline)
    : list (Z * json) :=
  match l with
  | [] => [(t + 60, mcp_timeout_event id created_at start_time (t + 60))]
  | (d, (p, m)) :: rest =>
      if d <? 60 then
        (t + d, mcp_event_data id created_at start_time (t + d) p m)
        :: (if (p =? 100) || (p =? -1) then []
            else mcp_expected id created_at start_time (t + d) rest)
      else [(t + 60, mcp_timeout_event id created_at start_time (t + 60))]
  end.

(** The seconds a worker takes for the invocations [l]. *)
Definition elapsed (l : timeline) : Z := foldr (fun c acc => fst c + acc) 0 l.





(** ** The worker seen by its callers *)

(** The invocations of the callback a run has made, in order. *)
Definition callbacks (l : list obs) : list (string * Z * string) :=
  omap (fun o => match o with
                 | Callback id p m => Some (id, p, m)
                 | Engine _ _ => None
                 end) l.

(** The first two invocations of every run. *)
Definition opening (id : string) : list (string * Z * string) :=
  [(id, 0, "Starting conversion process");
   (id, 25, "Preparing document for conversion")].



(** ** The buffered endpoint *)

(** The task [convert_contents] submits. *)
Definition convert_task (id : string) (rq : ConversionRequest)
    : ConversionTask (string → Z → string → future → future) :=
  {| request := rq; task_id := id;
     Worker.progress_callback := convert_progress_callback |}.

(** The two kinds of response of [convert_contents]. *)
Definition success_response (result : string) : JSONResponse :=
  {| status_code := 200;
     content := JObj [("status", JStr "success"); ("result", JStr result)] |}.
Definition error_response (message : string) : JSONResponse :=
  {| status_code := 500;
     content := JObj [("status", JStr "error"); ("message", JStr message)] |}.

(** ** The protocol endpoint *)

(** The values the discovery advertises for the parameter [name] of its
    tools, and the default it advertises. *)
Definition advertised_values (name : string) : list string :=
  flat_map (fun p => if String.eqb (p_name p) name
                     then default [] (p_enum p) else [])
    (flat_map parameters (tools tools_discovery)).
Definition advertised_default (name : string) : option string :=
  list_find (fun p => p_name p = name)
    (flat_map parameters (tools tools_discovery)) ≫= (fun x => p_default x.2).

(** The event of [mcp_error_generator]. *)
Definition unknown_tool_event (id created_at : string) (tool : option string)
    : json :=
  MCPEvent id ERROR "" created_at JNull
    (MCPErrorDetail ("Unknown tool: " +:+ fmt tool)) JNull.

(** No event but possibly the last is terminal for the protocol. *)
Definition mcp_quiet_until_last (l : list (Z * json)) : Prop :=
  ∃ pre post, l = pre ++ post
              ∧ Forall (λ x, mcp_terminal (snd x) = false) pre
              ∧ (length post ≤ 1)%nat.

Definition any_event : json → Prop := λ _, True.

(** ** The plain stream in detail *)

(** The event [progress_callback] builds for the invocation [c]. *)
Definition plain_event_of (c : Z * (Z * string)) : json :=
  plain_event_data (fst (snd c)) (snd (snd c)).

(** The events of a trace that are no heartbeats. *)
Definition without_heartbeats (l : list (Z * json)) : list json :=
  List.filter (fun e => negb (is_heartbeat e)) (map snd l).

(** What is left of a script when its first invocation has been waited
    for [t] seconds in vain. *)
Definition postponed (t : Z) (l : timeline) : timeline :=
  match l with
  | [] => []
  | (d, c) :: rest => (d - t, c) :: rest
  end.

(** ** Inputs used to exercise the statements *)

(** A disk and an engine on which everything succeeds. *)
Definition local_disk : Platform := {|
  dirname := fun _ => "";
  makedirs := fun p d => inr ({[p]} ∪ d);
  NamedTemporaryFile := fun suffix _ => inr ("/tmp/tmpk3x9" +:+ suffix);
  temp_write := fun _ => None;
  convert_file := fun _ _ _ _ d => inr ("", d);
  convert_text := fun _ _ _ _ d => inr ("<h1>Hi</h1>", d)
|}.

(** The temporary file can be created but not written. *)
Definition full_disk : Platform := {|
  dirname := fun _ => "";
  makedirs := fun p d => inr ({[p]} ∪ d);
  NamedTemporaryFile := fun suffix _ => inr ("/tmp/tmpk3x9" +:+ suffix);
  temp_write := fun _ => Some (OSError "[Errno 28] No space left on device");
  convert_file := fun _ _ _ _ d => inr ("", d);
  convert_text := fun _ _ _ _ d => inr ("<h1>Hi</h1>", d)
|}.

Definition broken_engine : Platform := {|
  dirname := fun _ => "";
  makedirs := fun p d => inr ({[p]} ∪ d);
  NamedTemporaryFile := fun suffix _ => inr ("/tmp/tmpk3x9" +:+ suffix);
  temp_write := fun _ => None;
  convert_file := fun _ _ _ _ _ => inl (RuntimeError "Pandoc died with exitcode 1");
  convert_text := fun _ _ _ _ _ => inl (RuntimeError "Pandoc died with exitcode 1")
|}.

Definition html_request : ConversionRequest :=
  {| contents := Some "# Hi"; input_file := None; input_format := "markdown";
     output_format := "html"; output_file := None |}.

Definition to_html : ConversionTask unit := {|
  request := html_request;
  task_id := "7f0c";
  Worker.progress_callback := tt
|}.

Definition to_docx : ConversionTask unit := {|
  request := {| contents := Some "# Hi"; input_file := None;
                input_format := "markdown"; output_format := "docx";
                output_file := Some "out.docx" |};
  task_id := "7f0c";
  Worker.progress_callback := tt
|}.

(** Both [input_file] and [contents] are given. *)
Definition both_inputs : ConversionTask unit := {|
  request := {| contents := Some "# Hi"; input_file := Some "in.md";
                input_format := "markdown"; output_format := "html";
                output_file := None |};
  task_id := "7f0c";
  Worker.progress_callback := tt
|}.

Definition iso0 : Z → string := fun _ => "2024-05-01T12:00:00".

Definition empty_shared : shared :=
  {| now := 0; active_connections := ∅; history := [] |}.

Definition idle_world : world :=
  {| sh := empty_shared; pool := worker_pool; pool_open := true;
     running := None; script := [] |}.

(** A consumer that stays to the end. *)
Definition listening : gstate :=
  {| wd := idle_world; closing := None; out := [] |}.

(** A consumer that leaves while the stream is suspended for the third
    time. *)
Definition leaving : gstate :=
  {| wd := idle_world; closing := Some 2%nat; out := [] |}.

(** 45 s in the queue of the pool, then a 40 s engine call. *)
Definition queued_then_slow : timeline :=
  [(45, (0, "Starting conversion process"));
   (0, (25, "Preparing document for conversion"));
   (0, (50, "Converting content to html"));
   (40, (75, "Finalizing conversion"));
   (0, (100, "<h1>Hi</h1>"))].


(** Progress every 20 s, then silence: an engine call that never
    returns. *)
Definition progress_then_silence : timeline :=
  [(20, (0, "Starting conversion process"));
   (20, (25, "Preparing document for conversion"));
   (20, (50, "Converting content to html"))].

(** [str.lower] on ASCII text. *)
Definition ascii_lower_char (a : Ascii.ascii) : Ascii.ascii :=
  let n := Ascii.nat_of_ascii a in
  if ((65 <=? n) && (n <=? 90))%nat then Ascii.ascii_of_nat (n + 32) else a.
Fixpoint ascii_lower (s : string) : string :=
  match s with
  | EmptyString => EmptyString
  | String a rest => String (ascii_lower_char a) (ascii_lower rest)
  end.

Definition supported_listing : string :=
  "markdown, html, pdf, docx, rst, latex, epub, txt".

(** The pool has been shut down. *)
Definition refusing : gstate :=
  {| wd := {| sh := empty_shared; pool := worker_pool; pool_open := false;
              running := None; script := [] |};
     closing := None; out := [] |}.


Definition no_discovery_dict : MCPToolsDiscovery → json := fun _ => JNull.

(** ** Proof automation *)

(** Runs the execution body symbolically: every call of a collaborator
    and every test of the body becomes a case. *)
Ltac run_worker_body :=
  cbv [_process_conversion conversion_body try_except try_finally bind ret
       raise observe when exists_ unlink os_makedirs write_temp run_engine
       pypandoc_convert_file pypandoc_convert_text get_fs put_fs fs log
       fst snd];
  repeat (case_match; simpl in *; try discriminate; simplify_eq).

(** Goes through the elements of a literal observation list. *)
Ltac in_log H :=
  repeat first
    [ apply elem_of_app in H as [H | H]
    | apply elem_of_cons in H as [H | H]
    | apply elem_of_nil in H; destruct H
    | discriminate H ].

(** Membership of a literal in a literal list, by evaluation. *)
Ltac mem_true := apply (bool_decide_unpack _); vm_compute; exact I.
Ltac mem_false H :=
  exfalso; revert H; apply (bool_decide_eq_false_1 _); vm_compute; reflexivity.

(** * Lemmas *)



(** Once the content has been written, the temporary file is gone when
    the body is left, whatever the directory creation and the engine
    do. *)
Lemma temp_file_removed_once_written (P : Platform) (CB : Type)
    (task : ConversionTask CB) (d0 : gset string) (temp_path : string) :
  select_mode (request task) = StringToFile →
  NamedTemporaryFile P ("." +:+ input_format (request task)) d0 = inr temp_path →
  temp_write P (fmt (contents (request task))) = None →
  temp_path ∉ fs (snd (_process_conversion P task (fresh d0))).
Proof.
  unfold select_mode, fresh. 
  run_worker_body; intros; simplify_eq;
    first [ by (apply not_elem_of_difference; right; apply elem_of_singleton)
          | match goal with
            | H : bool_decide _ = false |- _ =>
                apply bool_decide_eq_false in H; exact H
            end ].
Qed.

(** C7, at the failing input.  Content that cannot be written to the
    temporary file: the body fails, and the file that
    [NamedTemporaryFile] has created is still on disk when the task
    ends. *)
Theorem C7_temp_file_left_behind :
  fst (_process_conversion full_disk to_docx (fresh ∅))
    = inl (ValueError "Error during conversion: [Errno 28] No space left on device")
  ∧ "/tmp/tmpk3x9.markdown" ∈ fs (snd (_process_conversion full_disk to_docx (fresh ∅))).
Proof.
  split; [reflexivity|].
  apply (bool_decide_unpack _). vm_compute. exact I.
Qed.


(** With both inputs given and the file on disk, the file is converted
    and the contents are not. *)
Example both_inputs_reads_file :
  engine_calls (log (snd (_process_conversion local_disk both_inputs
                            (fresh {["in.md"]}))))
  = [ConvertFile "in.md" "html" None []].
Proof. by vm_compute. Qed.

(** The pool of the module has four workers. *)
Example worker_pool_default_size : max_workers worker_pool = 4%nat.
Proof. reflexivity. Qed.

(** ** The registry and the wait on a queue *)
Lemma same_shape_refl k s : same_shape k s s.
Proof. done. Qed.

Lemma same_shape_trans k s1 s2 s3 :
  same_shape k s1 s2 → same_shape k s2 s3 → same_shape k s1 s3.
Proof.
  intros (H1 & H2 & H3) (H4 & H5 & H6). split; [congruence|]. split.
  - intros k' Hk. rewrite H5, H2; done.
  - rewrite H6, H3. done.
Qed.

Lemma same_shape_advance k d s : same_shape k s (advance d s).
Proof. done. Qed.

Lemma same_shape_push k e s :
  is_Some (active_connections s !! k) → same_shape k s (push k e s).
Proof.
  intros Hs. split; [done|]. split.
  - intros k' Hk. cbn. by rewrite lookup_insert_ne.
  - cbn. rewrite lookup_insert_eq. split; eauto.
Qed.

Lemma queue_push k e s : queue k (push k e s) = queue k s ++ [e].
Proof. unfold queue at 1. cbn. by rewrite lookup_insert_eq. Qed.

Lemma queue_advance k d s : queue k (advance d s) = queue k s.
Proof. done. Qed.

Lemma fire_ok_running Q k w w' :
  running w' = running w → fire_ok Q k w → fire_ok Q k w'.
Proof.
  intros Hr H c s. specialize (H c s). unfold fire in *. cbn in *.
  by rewrite Hr.
Qed.

Lemma queue_pop_Some k s e s' :
  queue_pop k s = Some (e, s') →
  queue k s = e :: queue k s' ∧ same_shape k s s' ∧ now s' = now s.
Proof.
  unfold queue_pop, queue. destruct (active_connections s !! k) as [[|x q]|] eqn:E;
    intros H; simplify_eq. cbn. rewrite lookup_insert_eq. cbn.
  split; [done|]. split; [|done]. split; [done|]. split.
  - intros k' Hk. cbn. by rewrite lookup_insert_ne.
  - cbn. rewrite lookup_insert_eq, E. split; eauto.
Qed.

Lemma queue_pop_None k s : queue_pop k s = None → queue k s = [].
Proof.
  unfold queue_pop, queue. by destruct (active_connections s !! k) as [[|x q]|].
Qed.

(** A wait keeps the shape of the registry and the task; an event it
    returns comes from the worker, and what is still to come shrinks. *)
Lemma await_queue_spec (Q : json → Prop) (k : string) (l : timeline) :
  ∀ (t : Z) (w : world),
    fire_ok Q k w → Forall Q (queue k (sh w)) →
    same_shape k (sh w) (sh (snd (await_queue k l t w)))
    ∧ pool (snd (await_queue k l t w)) = pool w
    ∧ pool_open (snd (await_queue k l t w)) = pool_open w
    ∧ running (snd (await_queue k l t w)) = running w
    ∧ Forall Q (queue k (sh (snd (await_queue k l t w))))
    ∧ match fst (await_queue k l t w) with
      | Some e =>
          Q e ∧ (length (queue k (sh (snd (await_queue k l t w))))
                 + length (script (snd (await_queue k l t w)))
                 < length (queue k (sh w)) + length l)%nat
      | None =>
          (length (queue k (sh (snd (await_queue k l t w))))
           + length (script (snd (await_queue k l t w)))
           ≤ length (queue k (sh w)) + length l)%nat
      end.
Proof.
  induction l as [|[d c] rest IH]; intros t w Hf HQ; cbn [await_queue].
  - destruct (queue_pop k (sh w)) as [[e s]|] eqn:E; cbn.
    + apply queue_pop_Some in E as (Hq & Hs & _). rewrite Hq in *.
      apply Forall_cons in HQ as [HQe HQ]. cbn. repeat split; try done; try apply Hs. lia.
    + apply queue_pop_None in E. rewrite queue_advance, E. repeat split; try done.
  - destruct (queue_pop k (sh w)) as [[e s]|] eqn:E; cbn.
    + apply queue_pop_Some in E as (Hq & Hs & _). rewrite Hq in *.
      apply Forall_cons in HQ as [HQe HQ]. cbn. repeat split; try done; try apply Hs. lia.
    + apply queue_pop_None in E.
      destruct (d <? t) eqn:Hd; cbn.
      2:{ rewrite queue_advance, E. repeat split; try done. }
      set (w1 := with_sh (fire c (with_sh (advance d (sh w)) w)) w).
      assert (Hf1 : fire_ok Q k w1) by (by apply (fire_ok_running Q k w)).
      assert (H1 : same_shape k (sh w) (sh w1) ∧ Forall Q (queue k (sh w1))
                   ∧ (length (queue k (sh w1)) ≤ 1)%nat).
      { subst w1. cbn. destruct (Hf c (advance d (sh w))) as [-> | (e & He & Hs & ->)].
        - rewrite queue_advance, E. split; [apply same_shape_advance|].
          split; [constructor | cbn; lia].
        - split; [by apply (same_shape_push k e (advance d (sh w)))|].
          rewrite queue_push, queue_advance, E. cbn. split; [|lia].
          by apply Forall_singleton. }
      destruct H1 as (Hs1 & HQ1 & Hlen).
      specialize (IH (t - d) w1 Hf1 HQ1).
      destruct IH as (I1 & I2 & I3 & I4 & I5 & I6).
      split; [by eapply same_shape_trans|].
      repeat split; try done.
      rewrite E. cbn [length].
      destruct (fst (await_queue k rest (t - d) w1)); [destruct I6; split; [done|lia] | lia].
Qed.

(** ** The loop of the plain stream *)

Section PlainLoop.
Variable Q : json → Prop.
Variable iso : Z → string.
Variable id : string.

(** One turn: what is emitted, how the counter moves, and that what is
    still to come does not grow. *)
Lemma stream_iteration_spec (k : nat) (st : gstate) :
  (k < 20)%nat → fire_ok Q id (wd st) → Forall Q (queue id (sh (wd st))) →
  ∃ r st' its,
    stream_iteration iso id (15 * Z.of_nat k) st = (r, st')
    ∧ out st' = out st ++ its
    ∧ same_shape id (sh (wd st)) (sh (wd st'))
    ∧ running (wd st') = running (wd st)
    ∧ Forall Q (queue id (sh (wd st')))
    ∧ (closing st = None → closing st' = None)
    ∧ match r with
      | Ok (inl t') =>
          (∃ t e, its = [(t, e)] ∧ Q e ∧ terminal e = false
                  ∧ t' = 15 * Z.of_nat k
                  ∧ (measure id st' < measure id st)%nat)
          ∨ (∃ t, its = [(t, heartbeat_at iso t)]
                  ∧ t' = 15 * Z.of_nat (S k) ∧ (S k < 20)%nat
                  ∧ (measure id st' ≤ measure id st)%nat)
      | Ok (inr _) =>
          (∃ t e, its = [(t, e)] ∧ Q e ∧ terminal e = true)
          ∨ (∃ t, its = [(t, heartbeat_at iso t); (t, inactivity_error)]
                  ∧ k = 19%nat)
      | Exc x =>
          (x = GeneratorExit ∨ x = CancelledError) ∧ closing st ≠ None
          ∧ ((length its ≤ 1)%nat
             ∨ ∃ t a, its = [(t, heartbeat_at iso t); a])
      | Hung => False
      end.
Proof.
  intros Hk Hf HQ.
  pose proof (await_queue_spec Q id (script (wd st)) 15 (wd st) Hf HQ)
    as (A1 & A2 & A3 & A4 & A5 & A6).
  unfold stream_iteration, gtry_except, gbind, wait_for_queue_get, yield,
    get_shared, gret, measure.
  destruct (await_queue id (script (wd st)) 15 (wd st)) as [o w'] eqn:E.
  cbn [fst snd] in *.
  assert (Hterm : ∀ e, get_in "event" ["complete"; "error"] e = terminal e)
    by reflexivity.
  destruct o as [e|]; [destruct A6 as [A6 A7]|].
  - (* an event is delivered *)
    destruct (closing st) as [[|[|n]]|] eqn:Ec; cbn;
      try (destruct (get_in "event" ["complete"; "error"] e) eqn:Ht;
           rewrite Hterm in Ht);
      eexists _, _, _; (split; [reflexivity|]); cbn;
      (split; [first [ symmetry; apply app_nil_r | reflexivity ]|]);
      repeat (split; [done|]); try done;
      try (left; eexists _, _; done);
      try (split; [auto|]; split; [done|]; left; cbn; lia).
  - (* the wait times out *)
    assert (Hlt : (300 <=? 15 * Z.of_nat k + 15) = true → k = 19%nat)
      by (intros ?%Z.leb_le; lia).
    assert (Hge : (300 <=? 15 * Z.of_nat k + 15) = false → (S k < 20)%nat)
      by (intros ?%Z.leb_gt; lia).
    destruct (closing st) as [[|[|[|n]]]|] eqn:Ec; cbn;
      try (destruct (300 <=? 15 * Z.of_nat k + 15) eqn:Hc; cbn);
      eexists _, _, _; (split; [reflexivity|]); cbn;
      (split; [first [ symmetry; apply app_nil_r
                     | rewrite <- ?app_assoc; reflexivity ]|]);
      repeat (split; [done|]); try done;
      try (right; eexists; split; [reflexivity|]; auto; split; [lia|]; auto);
      try (right; eexists; split; [reflexivity|]; auto);
      try (split; [auto|]; split; [done|];
           first [ left; cbn; lia | right; eexists _, _; reflexivity ]).
Qed.

Lemma quiet_until_last_cons x l :
  terminal (snd x) = false → quiet_until_last l → quiet_until_last (x :: l).
Proof.
  intros Hx (pre & post & -> & Hpre & Hpost).
  exists (x :: pre), post. split; [done|]. split; [by constructor | done].
Qed.

Lemma quiet_until_last_short l : (length l ≤ 1)%nat → quiet_until_last l.
Proof. intros H. exists [], l. split; [done|]. split; [constructor | done]. Qed.

(** The loop ends within the fuel that what is still to come and the
    remaining heartbeats ask for; it keeps the shape of the registry, is
    left by [break] or by the consumer going away, and emits a legal
    trace. *)
Lemma stream_loop_spec :
  ∀ (fuel k : nat) (st : gstate),
    (k < 20)%nat → fire_ok Q id (wd st) → Forall Q (queue id (sh (wd st))) →
    (measure id st + (20 - k) ≤ fuel)%nat →
    ∃ r st' evs,
      while fuel (stream_iteration iso id) (15 * Z.of_nat k) st = (r, st')
      ∧ out st' = out st ++ evs
      ∧ same_shape id (sh (wd st)) (sh (wd st'))
      ∧ quiet_until_last evs
      ∧ match r with
        | Ok _ => True
        | Exc x => (x = GeneratorExit ∨ x = CancelledError) ∧ closing st ≠ None
        | Hung => False
        end
      ∧ (closing st = None →
         r = Ok tt ∧ closing st' = None ∧ plain_trace Q iso k evs).
Proof.
  induction fuel as [|fuel IH]; intros k st Hk Hf HQ Hfuel; [lia|].
  destruct (stream_iteration_spec k st Hk Hf HQ)
    as (r & st1 & its & Hrun & Hout & Hshape & Hrunning & HQ1 & Hclose & Hcases).
  cbn [while]. unfold gbind. rewrite Hrun.
  assert (Hf1 : fire_ok Q id (wd st1)) by (by apply (fire_ok_running Q id (wd st))).
  destruct r as [[t'|[]]| x |]; [| | |done].
  - (* next turn *)
    destruct Hcases as [(t & e & -> & He & Hterm & -> & Hm)
                       |(t & -> & -> & Hk' & Hm)].
    + destruct (IH k st1) as (r & st' & evs & Hw & Hout' & Hshape' & Hq & Hr & Hc);
        [done.. | lia |].
      exists r, st', ((t, e) :: evs). rewrite Hw.
      split; [done|]. split; [by rewrite Hout', Hout, <- app_assoc|].
      split; [by eapply same_shape_trans|].
      split; [by apply quiet_until_last_cons|].
      split.
      * destruct r as [|x|]; [done| |done]. destruct Hr as [Hx Hcl].
        split; [done|]. intros Hn. by apply Hcl, Hclose.
      * intros Hn. destruct (Hc (Hclose Hn)) as (-> & Hcl & Htr).
        split; [done|]. split; [done|]. by apply pt_event.
    + destruct (IH (S k) st1) as (r & st' & evs & Hw & Hout' & Hshape' & Hq & Hr & Hc);
        [done.. | lia |].
      exists r, st', ((t, heartbeat_at iso t) :: evs). rewrite Hw.
      split; [done|]. split; [by rewrite Hout', Hout, <- app_assoc|].
      split; [by eapply same_shape_trans|].
      split; [by apply quiet_until_last_cons|].
      split.
      * destruct r as [|x|]; [done| |done]. destruct Hr as [Hx Hcl].
        split; [done|]. intros Hn. by apply Hcl, Hclose.
      * intros Hn. destruct (Hc (Hclose Hn)) as (-> & Hcl & Htr).
        split; [done|]. split; [done|]. by apply pt_heartbeat.
  - (* break *)
    exists (Ok tt), st1, its. split; [done|]. split; [done|]. split; [done|].
    destruct Hcases as [(t & e & -> & He & Hterm) | (t & -> & ->)].
    + split; [by apply quiet_until_last_short; cbn|]. split; [done|].
      intros Hn. split; [done|]. split; [auto|]. by apply pt_terminal.
    + split; [apply quiet_until_last_cons; [done|by apply quiet_until_last_short]|].
      split; [done|]. intros Hn. split; [done|]. split; [auto|]. apply pt_timeout.
  - (* the consumer went away *)
    exists (Exc x), st1, its. split; [done|]. split; [done|]. split; [done|].
    destruct Hcases as (Hx & Hcl & Hits).
    split.
    + destruct Hits as [Hlen | (t & a & ->)].
      * by apply quiet_until_last_short.
      * apply quiet_until_last_cons; [done|]. by apply quiet_until_last_short.
    + split; [done|]. intros Hn. done.
Qed.

End PlainLoop.

(** ** The plain stream as a whole *)
Lemma contains_true k s : contains k s = true ↔ is_Some (active_connections s !! k).
Proof.
  unfold contains. rewrite bool_decide_eq_true. apply elem_of_dom.
Qed.

Lemma contains_false k s : contains k s = false ↔ active_connections s !! k = None.
Proof.
  unfold contains. rewrite bool_decide_eq_false, elem_of_dom.
  rewrite <- eq_None_not_Some. done.
Qed.

(** [progress_callback] puts one event into the registered queue of its
    task, or does nothing. *)
Lemma progress_callback_cases (task_id : string) (p : Z) (m : string) (s : shared) :
  (active_connections s !! task_id = None ∧ progress_callback task_id p m s = inr s)
  ∨ (∃ e, worker_event e ∧ is_Some (active_connections s !! task_id)
          ∧ progress_callback task_id p m s = inr (push task_id e s)).
Proof.
  unfold progress_callback.
  destruct (contains task_id s) eqn:Hc.
  - right. apply contains_true in Hc as Hs. destruct Hs as [q Hq].
    unfold queue_put, getitem, push, queue. rewrite Hq. cbn.
    exists (plain_event_data p m). split; [by exists p, m|]. split; [eauto|].
    unfold plain_event_data.
    destruct (p =? 100); [|destruct (p =? -1)]; done.
  - left. apply contains_false in Hc. split; [done|].
    destruct (p =? 100); [|destruct (p =? -1)]; done.
Qed.

Lemma fire_ok_none Q k w : running w = None → fire_ok Q k w.
Proof. intros H c s. left. unfold fire. cbn. by rewrite H. Qed.

Lemma fire_ok_stream_task id rq w :
  running w = Some (stream_task id rq) → fire_ok worker_event id w.
Proof.
  intros H c s. unfold fire. cbn. rewrite H. cbn.
  destruct (progress_callback_cases id (fst c) (snd c) s) as [[_ ->] | (e & He & Hs & ->)].
  - by left.
  - right. by exists e.
Qed.

Lemma finalizer_spec (id : string) (st : gstate) :
  is_Some (active_connections (sh (wd st)) !! id) →
  ∃ st', finalizer id st = (Ok tt, st')
         ∧ out st' = out st ∧ closing st' = closing st
         ∧ history (sh (wd st')) = history (sh (wd st)) ++ [Removed id]
         ∧ active_connections (sh (wd st'))
           = delete id (active_connections (sh (wd st))).
Proof.
  intros Hs. unfold finalizer, gbind, get_shared, gwhen.
  apply contains_true in Hs as Hc. rewrite Hc.
  unfold update_shared, delitem. destruct Hs as [q ->].
  eexists. split; [reflexivity|]. done.
Qed.

Lemma same_shape_delete id s s' :
  same_shape id s s' →
  delete id (active_connections s') = delete id (active_connections s).
Proof.
  intros (_ & H & _). apply map_eq. intros k.
  destruct (decide (k = id)) as [->|Hne].
  - by rewrite !lookup_delete_eq.
  - rewrite !lookup_delete_ne by done. by apply H.
Qed.

Lemma stream_body_spec (run_worker : ConversionTask callback → timeline)
    (iso : Z → string) (id : string) (rq : ConversionRequest) (fuel : nat)
    (st : gstate) :
  queue id (sh (wd st)) = [] →
  (length (run_worker (stream_task id rq)) + 20 ≤ fuel)%nat →
  ∃ r st' evs,
    gtry_except is_Exception
      (gbind (yield initial_progress) (fun _ =>
       gbind (submit_task run_worker (stream_task id rq)) (fun _ =>
       while fuel (stream_iteration iso id) 0)))
      (fun e => yield (generator_error e)) st = (r, st')
    ∧ out st' = out st ++ (now (sh (wd st)), initial_progress) :: evs
    ∧ same_shape id (sh (wd st)) (sh (wd st'))
    ∧ quiet_until_last evs
    ∧ (r = Ok tt
       ∨ (r = Exc GeneratorExit ∨ r = Exc CancelledError) ∧ closing st ≠ None)
    ∧ (closing st = None →
       r = Ok tt ∧ closing st' = None
       ∧ (pool_open (wd st) = true ∧ plain_trace worker_event iso 0 evs
          ∨ pool_open (wd st) = false
            ∧ evs = [(now (sh (wd st)), generator_error pool_shut_down)])).
Proof.
  intros Hq Hfuel.
  unfold gtry_except, gbind, yield, submit_task.
  destruct (closing st) as [[|n]|] eqn:Ec; cbn.
  - (* closed at the first yield *)
    eexists _, _, []. split; [reflexivity|]. cbn.
    split; [done|]. split; [done|].
    split; [apply quiet_until_last_short; cbn; lia|].
    split; [right; auto | done].
  - destruct (pool_open (wd st)) eqn:Hp; cbn.
    + set (st2 := set_world _ _).
      destruct (stream_loop_spec worker_event iso id fuel 0 st2)
        as (r & st' & evs & Hw & Hout & Hshape & Hquiet & Hr & Hc);
        [lia | by apply (fire_ok_stream_task id rq)
        | subst st2; cbn; rewrite Hq; constructor
        | unfold measure; subst st2; cbn; rewrite Hq; cbn; lia |].
      change (15 * Z.of_nat 0) with 0 in Hw. rewrite Hw.
      exists r, st', evs.
      assert (Hout' : out st' = out st ++ (now (sh (wd st)), initial_progress) :: evs)
        by (rewrite Hout; subst st2; cbn; by rewrite <- app_assoc).
      destruct r as [[]|x|]; [| |done].
      * split; [done|]. split; [done|]. split; [exact Hshape|].
        split; [done|]. split; [by left | done].
      * destruct Hr as [[-> | ->] _]; cbn;
          (split; [done|]); (split; [done|]); (split; [exact Hshape|]);
          (split; [done|]); (split; [right; auto | done]).
    + destruct n as [|n]; cbn; eexists _, _, [_]; (split; [reflexivity|]); cbn;
        (split; [by rewrite <- app_assoc|]); (split; [done|]);
        (split; [apply quiet_until_last_short; cbn; lia|]);
        (split; [auto | done]).
  - destruct (pool_open (wd st)) eqn:Hp; cbn.
    + set (st2 := set_world _ _).
      destruct (stream_loop_spec worker_event iso id fuel 0 st2)
        as (r & st' & evs & Hw & Hout & Hshape & Hquiet & Hr & Hc);
        [lia | by apply (fire_ok_stream_task id rq)
        | subst st2; cbn; rewrite Hq; constructor
        | unfold measure; subst st2; cbn; rewrite Hq; cbn; lia |].
      change (15 * Z.of_nat 0) with 0 in Hw. rewrite Hw.
      destruct (Hc eq_refl) as (-> & Hcl & Htr).
      exists (Ok tt), st', evs.
      split; [done|]. split; [by rewrite Hout; subst st2; cbn; rewrite <- app_assoc|].
      split; [exact Hshape|]. split; [done|]. split; [by left|].
      intros _. split; [done|]. split; [done|]. left. done.
    + eexists _, _, [_]; (split; [reflexivity|]); cbn;
        (split; [by rewrite <- app_assoc|]); (split; [done|]);
        (split; [apply quiet_until_last_short; cbn; lia|]);
        (split; [by left|]).
      intros _. split; [done|]. split; [done|]. right. done.
Qed.

Lemma event_generator_unfold rw iso id rq fuel :
  event_generator rw iso id rq fuel
  = gtry_finally
      (gtry_except is_Exception
         (gbind (yield initial_progress) (fun _ =>
          gbind (submit_task rw (stream_task id rq)) (fun _ =>
          while fuel (stream_iteration iso id) 0)))
         (fun e => yield (generator_error e)))
      (finalizer id).
Proof. reflexivity. Qed.

(** Every way through [stream_conversion]. *)
Lemma stream_conversion_spec (rw : ConversionTask callback → timeline)
    (iso : Z → string) (id : string) (rq : ConversionRequest) (fuel : nat)
    (st : gstate) :
  (length (rw (stream_task id rq)) + 20 ≤ fuel)%nat →
  ∃ r st' evs,
    stream_conversion rw iso id rq fuel st = (r, st')
    ∧ out st' = out st ++ (now (sh (wd st)), initial_progress) :: evs
    ∧ history (sh (wd st')) = history (sh (wd st)) ++ [Inserted id; Removed id]
    ∧ active_connections (sh (wd st'))
      = delete id (active_connections (sh (wd st)))
    ∧ quiet_until_last evs
    ∧ (r = Ok tt
       ∨ (r = Exc GeneratorExit ∨ r = Exc CancelledError) ∧ closing st ≠ None)
    ∧ (closing st = None →
       r = Ok tt
       ∧ (pool_open (wd st) = true ∧ plain_trace worker_event iso 0 evs
          ∨ pool_open (wd st) = false
            ∧ evs = [(now (sh (wd st)), generator_error pool_shut_down)])).
Proof.
  intros Hfuel.
  unfold stream_conversion, gbind, update_shared.
  set (st1 := set_world (with_sh (setitem id [] (sh (wd st))) (wd st)) st).
  assert (Hq : queue id (sh (wd st1)) = []).
  { subst st1. unfold queue. cbn. by rewrite lookup_insert_eq. }
  destruct (stream_body_spec rw iso id rq fuel st1 Hq Hfuel)
    as (r & st2 & evs & Hrun & Hout & Hshape & Hquiet & Hr & Hc).
  rewrite event_generator_unfold. unfold gtry_finally. rewrite Hrun.
  assert (Hs2 : is_Some (active_connections (sh (wd st2)) !! id)).
  { apply Hshape. subst st1. cbn. rewrite lookup_insert_eq. eauto. }
  destruct (finalizer_spec id st2 Hs2) as (st3 & Hfin & Hout3 & Hcl3 & Hh3 & Hac3).
  assert (Hhist : history (sh (wd st3))
                  = history (sh (wd st)) ++ [Inserted id; Removed id]).
  { rewrite Hh3. destruct Hshape as (-> & _). subst st1. cbn.
    by rewrite <- app_assoc. }
  assert (Hac : active_connections (sh (wd st3))
                = delete id (active_connections (sh (wd st)))).
  { rewrite Hac3, (same_shape_delete id _ _ Hshape). subst st1. cbn.
    apply delete_insert_eq. }
  exists r, st3, evs.
  destruct Hr as [-> | [[-> | ->] Hcl]]; rewrite Hfin;
    (split; [done|]); (split; [by rewrite Hout3, Hout|]);
    (split; [done|]); (split; [done|]); (split; [done|]).
  - split; [by left|]. intros Hn. destruct (Hc Hn) as (_ & _ & H). done.
  - split; [right; auto|]. intros Hn. destruct (Hc Hn) as (? & _). done.
  - split; [right; auto|]. intros Hn. destruct (Hc Hn) as (? & _). done.
Qed.

(** A worker that never reports: twenty heartbeats, the last one
    together with the inactivity error, 300 seconds after the start. *)
Example silent_worker_times_out :
  heartbeats (out (snd (stream_conversion (fun _ => []) iso0 "e1" html_request
                          20 listening))) = 20%nat
  ∧ last (out (snd (stream_conversion (fun _ => []) iso0 "e1" html_request
                      20 listening)))
    = Some (300, inactivity_error).
Proof. by vm_compute. Qed.

(** Progress at 20 s, 40 s and 60 s, then silence: the inactivity error
    comes at 315 s, with the twentieth timed-out wait of the stream; a
    counter reset by the last progress event would give 360 s. *)
Example progress_does_not_reset_counter :
  heartbeats (out (snd (stream_conversion (fun _ => progress_then_silence) iso0
                          "e1" html_request 23 listening))) = 20%nat
  ∧ last (out (snd (stream_conversion (fun _ => progress_then_silence) iso0
                      "e1" html_request 23 listening)))
    = Some (315, inactivity_error).
Proof. by vm_compute. Qed.

(** ** The protocol-wrapped stream *)
Lemma mcp_event_terminal id created_at start_time t p m :
  mcp_terminal (mcp_event_data id created_at start_time t p m)
  = (p =? 100) || (p =? -1).
Proof.
  unfold mcp_event_data.
  destruct (p =? 100); [done|]. destruct (p =? -1); [done|].
  by destruct (0 <? p).
Qed.

Section ProtocolLoop.
Variable id : string.
Variable rq : ConversionRequest.
Variable created_at : string.
Variable start_time : Z.

Lemma await_queue_mcp_event d p m rest w :
  running w = Some (mcp_task id rq created_at start_time) →
  active_connections (sh w) !! id = Some [] →
  d < 60 →
  ∃ w', await_queue id ((d, (p, m)) :: rest) 60 w
        = (Some (mcp_event_data id created_at start_time (now (sh w) + d) p m), w')
        ∧ now (sh w') = now (sh w) + d
        ∧ active_connections (sh w') !! id = Some []
        ∧ same_shape id (sh w) (sh w')
        ∧ running w' = running w
        ∧ script w' = rest.
Proof.
  intros Hr Hq Hd. cbn [await_queue].
  unfold queue_pop at 1. rewrite Hq.
  apply Z.ltb_lt in Hd as ->.
  set (w1 := with_sh _ w).
  assert (H1 : sh w1 = push id (mcp_event_data id created_at start_time
                                  (now (sh w) + d) p m) (advance d (sh w))).
  { subst w1. cbn. unfold fire. cbn. rewrite Hr. cbn.
    unfold mcp_progress_callback.
    assert (Hc : contains id (advance d (sh w)) = true)
      by (apply contains_true; cbn; rewrite Hq; eauto).
    rewrite Hc. unfold queue_put, getitem, push, queue. cbn. rewrite Hq. cbn.
    unfold mcp_event_data.
    destruct (p =? 100); [|destruct (p =? -1)]; done. }
  assert (Hpop : queue_pop id (sh w1)
                 = Some (mcp_event_data id created_at start_time (now (sh w) + d) p m,
                         {| now := now (sh w) + d;
                            active_connections :=
                              <[id := []]> (active_connections (sh w1));
                            history := history (sh w) |})).
  { unfold queue_pop. rewrite H1. cbn. rewrite lookup_insert_eq.
    unfold queue. cbn. rewrite Hq. done. }
  assert (Hshape : same_shape id (sh w)
            {| now := now (sh w) + d;
               active_connections := <[id := []]> (active_connections (sh w1));
               history := history (sh w) |}).
  { split; [done|]. split.
    - intros k' Hk. cbn [active_connections].
      rewrite lookup_insert_ne by done. rewrite H1. cbn [active_connections push].
      by rewrite lookup_insert_ne.
    - cbn [active_connections]. rewrite lookup_insert_eq, Hq. split; eauto. }
  destruct rest as [|[d' c'] rest']; cbn [await_queue]; rewrite Hpop;
    eexists; (split; [reflexivity|]); cbn;
    (split; [done|]); (split; [by rewrite lookup_insert_eq|]);
    (split; [exact Hshape | done]).
Qed.

Lemma await_queue_mcp_timeout l w :
  active_connections (sh w) !! id = Some [] →
  match l with [] => True | (d, _) :: _ => 60 ≤ d end →
  ∃ w', await_queue id l 60 w = (None, w')
        ∧ now (sh w') = now (sh w) + 60
        ∧ sh w' = advance 60 (sh w)
        ∧ running w' = running w.
Proof.
  intros Hq Hl. destruct l as [|[d c] rest]; cbn [await_queue];
    unfold queue_pop; rewrite Hq.
  - eexists. split; [reflexivity|]. done.
  - apply Z.ltb_ge in Hl as ->. eexists. split; [reflexivity|]. done.
Qed.

(** The loop of the protocol-wrapped stream relays what [mcp_expected]
    prescribes and is left by [break] or by [TimeoutError]. *)
Lemma mcp_loop_exact :
  ∀ (l : timeline) (fuel : nat) (st : gstate),
    closing st = None →
    running (wd st) = Some (mcp_task id rq created_at start_time) →
    script (wd st) = l →
    active_connections (sh (wd st)) !! id = Some [] →
    (length l + 1 ≤ fuel)%nat →
    ∃ r st',
      while fuel (mcp_iteration id) tt st = (r, st')
      ∧ same_shape id (sh (wd st)) (sh (wd st'))
      ∧ closing st' = None
      ∧ match r with
        | Ok _ =>
            out st' = out st ++ mcp_expected id created_at start_time
                                  (now (sh (wd st))) l
        | Exc TimeoutError =>
            out st' ++ [(now (sh (wd st')),
                         mcp_timeout_event id created_at start_time
                           (now (sh (wd st'))))]
            = out st ++ mcp_expected id created_at start_time
                          (now (sh (wd st))) l
        | _ => False
        end.
Proof.
  induction l as [|[d [p m]] rest IH]; intros fuel st Hcl Hrun Hscript Hq Hfuel;
    (destruct fuel as [|fuel]; [cbn in Hfuel; lia|]);
    cbn [while]; unfold gbind at 1; unfold mcp_iteration at 1;
    unfold gbind at 1; unfold wait_for_queue_get; rewrite Hcl, Hscript.
  - destruct (await_queue_mcp_timeout [] (wd st) Hq I)
      as (w' & -> & Hnow & Hsh & Hr).
    cbn. eexists _, _. split; [reflexivity|]. cbn.
    split; [by rewrite Hsh|]. split; [done|]. by rewrite Hnow.
  - destruct (Z.ltb_spec d 60) as [Hd|Hd].
    + destruct (await_queue_mcp_event d p m rest (wd st) Hrun Hq Hd)
        as (w' & -> & Hnow & Hq' & Hshape & Hr & Hs).
      cbn. unfold yield, gbind. cbn. rewrite Hnow.
      fold (mcp_terminal (mcp_event_data id created_at start_time
                            (now (sh (wd st)) + d) p m)).
      rewrite mcp_event_terminal.
      destruct ((p =? 100) || (p =? -1)) eqn:Ht.
      * cbn. eexists _, _. split; [reflexivity|]. cbn.
        split; [done|]. split; [done|]. 
        apply Z.ltb_lt in Hd. cbn [mcp_expected]. by rewrite Hd, ?Ht.
      * cbn.
        set (st1 := {| wd := w'; closing := None; out := _ |}).
        destruct (IH fuel st1) as (r & st' & Hw & Hshape' & Hcl' & Hout);
          [done | subst st1; cbn; congruence | subst st1; cbn; done
          | subst st1; cbn; done | cbn in Hfuel; lia |].
        exists r, st'. split; [done|].
        split; [by eapply same_shape_trans|]. split; [done|].
        apply Z.ltb_lt in Hd. cbn [mcp_expected]. rewrite Hd, ?Ht.
        destruct r as [[]|[]|]; try done; rewrite Hout; subst st1; cbn;
          rewrite Hnow, <- app_assoc; done.
    + destruct (await_queue_mcp_timeout ((d, (p, m)) :: rest) (wd st) Hq Hd)
        as (w' & -> & Hnow & Hsh & Hr).
      cbn. eexists _, _. split; [reflexivity|]. cbn.
      split; [by rewrite Hsh|]. split; [done|].
      apply Z.ltb_ge in Hd. cbn [mcp_expected]. by rewrite Hd, Hnow.
Qed.

End ProtocolLoop.

(** [mcp_convert_generator], the consumer staying and the pool open:
    what is emitted, and the registry afterwards. *)
Lemma mcp_generator_exact (rw : ConversionTask callback → timeline)
    (iso : Z → string) (id : string) (rq : ConversionRequest) (fuel : nat)
    (st : gstate) :
  closing st = None → pool_open (wd st) = true →
  (length (rw (mcp_task id rq (iso (now (sh (wd st)))) (now (sh (wd st))))) + 1
   ≤ fuel)%nat →
  ∃ st',
    mcp_convert_generator rw iso id rq fuel st = (Ok tt, st')
    ∧ out st'
      = out st
        ++ (now (sh (wd st)), mcp_initial_event id (iso (now (sh (wd st)))))
           :: mcp_expected id (iso (now (sh (wd st)))) (now (sh (wd st)))
                (now (sh (wd st)))
                (rw (mcp_task id rq (iso (now (sh (wd st)))) (now (sh (wd st)))))
    ∧ history (sh (wd st')) = history (sh (wd st)) ++ [Inserted id; Removed id]
    ∧ active_connections (sh (wd st'))
      = delete id (active_connections (sh (wd st))).
Proof.
  intros Hcl Hp Hfuel.
  set (t0 := now (sh (wd st))) in *.
  set (task := mcp_task id rq (iso t0) t0) in *.
  unfold mcp_convert_generator.
  unfold gbind at 1. unfold get_shared at 1. fold t0.
  change (gtry_finally ?m ?f) with (gtry_finally m (finalizer id)).
  unfold gtry_finally, gtry_except at 1.
  unfold gbind at 1. unfold update_shared at 1.
  unfold gbind at 1. unfold yield at 1. cbn [closing set_world]. rewrite Hcl.
  unfold gbind at 1. unfold submit_task at 1. cbn [wd set_world with_sh pool_open].
  rewrite Hp.
  set (st2 := set_world _ _).
  destruct (mcp_loop_exact id rq (iso t0) t0 (rw task) fuel st2)
    as (r & st3 & Hw & Hshape & Hcl3 & Hout);
    [done | done | done | subst st2; cbn; by rewrite lookup_insert_eq | done |].
  unfold gtry_except. rewrite Hw.
  assert (Hs0 : same_shape id (setitem id [] (sh (wd st))) (sh (wd st3))) by exact Hshape.
  assert (Hs3 : is_Some (active_connections (sh (wd st3)) !! id)).
  { apply Hs0. cbn. rewrite lookup_insert_eq. eauto. }
  assert (Hfinal : ∀ st4, wd st4 = wd st3 →
            ∃ st', finalizer id st4 = (Ok tt, st') ∧ out st' = out st4
              ∧ history (sh (wd st')) = history (sh (wd st)) ++ [Inserted id; Removed id]
              ∧ active_connections (sh (wd st'))
                = delete id (active_connections (sh (wd st)))).
  { intros st4 Hwd.
    destruct (finalizer_spec id st4) as (st' & Hf & Ho & _ & Hh & Hac);
      [by rewrite Hwd|].
    exists st'. split; [done|]. split; [done|]. rewrite Hh, Hac, Hwd. split.
    - destruct Hs0 as (-> & _). cbn. by rewrite <- app_assoc.
    - rewrite (same_shape_delete id _ _ Hs0). cbn. apply delete_insert_eq. }
  destruct r as [[]|[]|]; try done.
  - destruct (Hfinal st3 eq_refl) as (st' & -> & Ho & Hh & Hac).
    exists st'. split; [done|]. split; [|done].
    rewrite Ho, Hout. subst st2. cbn. by rewrite <- app_assoc.
  - cbn [is_TimeoutError]. unfold gbind, get_shared, yield. rewrite Hcl3.
    set (st4 := {| wd := wd st3; closing := None; out := _ |}).
    destruct (Hfinal st4 eq_refl) as (st' & -> & Ho & Hh & Hac).
    exists st'. split; [done|]. split; [|done].
    rewrite Ho. subst st4. cbn [out]. 
    unfold mcp_timeout_event, mcp_error_event in Hout. rewrite Hout.
    subst st2. cbn. by rewrite <- app_assoc.
Qed.

(** ** Shapes of what the streams emit *)
Lemma worker_event_not_heartbeat e : worker_event e → is_heartbeat e = false.
Proof.
  intros (p & m & ->). unfold plain_event_data.
  destruct (p =? 100); [|destruct (p =? -1)]; done.
Qed.

Lemma worker_event_not_inactivity e : worker_event e → e ≠ inactivity_error.
Proof.
  intros (p & m & ->). unfold plain_event_data, inactivity_error.
  destruct (p =? 100); [|destruct (p =? -1)]; intros H; discriminate H.
Qed.

Lemma plain_trace_nonempty Q iso k l : plain_trace Q iso k l → l ≠ [].
Proof. by destruct 1. Qed.

Lemma plain_trace_single_terminal iso k l :
  plain_trace worker_event iso k l →
  ∃ pre x, l = pre ++ [x]
           ∧ Forall (λ y, terminal (snd y) = false) pre
           ∧ terminal (snd x) = true
           ∧ (worker_event (snd x) ∨ snd x = inactivity_error).
Proof.
  induction 1 as [k t e He Ht | k t e rest He Ht _ IH | k t rest Hk _ IH | t].
  - exists [], (t, e). split; [done|]. split; [constructor|]. split; [done|]. by left.
  - destruct IH as (pre & x & -> & Hpre & Hx). exists ((t, e) :: pre), x.
    split; [done|]. split; [by constructor | done].
  - destruct IH as (pre & x & -> & Hpre & Hx).
    exists ((t, heartbeat_at iso t) :: pre), x.
    split; [done|]. split; [by constructor | done].
  - exists [(t, heartbeat_at iso t)], (t, inactivity_error).
    split; [done|]. split; [by repeat constructor|]. split; [done|]. by right.
Qed.

Lemma last_cons_nonempty {A} (x : A) (l : list A) : l ≠ [] → last (x :: l) = last l.
Proof. by destruct l. Qed.

(** A legal trace has at most twenty heartbeats from its first turn on,
    and exactly as many as were left when it ends with the inactivity
    error. *)
Lemma plain_trace_heartbeats iso k l :
  plain_trace worker_event iso k l →
  (heartbeats l ≤ 20 - k)%nat
  ∧ ∀ t, last l = Some (t, inactivity_error) → heartbeats l = (20 - k)%nat.
Proof.
  induction 1 as [k t e He Ht | k t e rest He Ht Hrest IH | k t rest Hk Hrest IH | t].
  - unfold heartbeats. cbn. rewrite (worker_event_not_heartbeat e He). cbn.
    split; [lia|]. intros t' [= _ Heq]. by apply worker_event_not_inactivity in He.
  - destruct IH as [IH1 IH2]. unfold heartbeats in *. cbn.
    rewrite (worker_event_not_heartbeat e He). split; [done|].
    intros t'. rewrite last_cons_nonempty by (by eapply plain_trace_nonempty).
    apply IH2.
  - destruct IH as [IH1 IH2]. unfold heartbeats in *. cbn. split; [lia|].
    intros t'. rewrite last_cons_nonempty by (by eapply plain_trace_nonempty).
    intros Hl. rewrite (IH2 t' Hl). lia.
  - unfold heartbeats. cbn. split; [lia|]. done.
Qed.

Lemma mcp_expected_single_terminal id created_at start_time :
  ∀ l t, ends_with_single_terminal mcp_terminal
           (mcp_expected id created_at start_time t l).
Proof.
  induction l as [|[d [p m]] rest IH]; intros t; cbn [mcp_expected].
  - by exists [], (t + 60, mcp_timeout_event id created_at start_time (t + 60)).
  - destruct (d <? 60).
    + destruct ((p =? 100) || (p =? -1)) eqn:Ht.
      * exists [], (t + d, mcp_event_data id created_at start_time (t + d) p m).
        split; [done|]. split; [constructor|]. cbn. by rewrite mcp_event_terminal.
      * destruct (IH (t + d)) as (pre & x & -> & Hpre & Hx).
        exists ((t + d, mcp_event_data id created_at start_time (t + d) p m) :: pre), x.
        split; [done|]. split; [|done]. constructor; [|done].
        cbn. by rewrite mcp_event_terminal.
    + by exists [], (t + 60, mcp_timeout_event id created_at start_time (t + 60)).
Qed.

(** ** The claims about the streams *)
(** C1.  A submitted task gets exactly one terminal event on its stream,
    and nothing after it.  On the plain stream ([stream_conversion]) no
    emitted event but the last is terminal, however the stream is left;
    when the consumer stays, the stream returns and what it emitted is a
    run of non-terminal events followed by one terminal event, which is
    either an event of the worker or the synthetic inactivity error.  The
    protocol-wrapped stream ([mcp_convert_generator]) likewise ends with
    its only terminal event. *)
Theorem C1_exactly_one_terminal_event
    (rw : ConversionTask callback → timeline) (iso : Z → string)
    (id : string) (rq : ConversionRequest) (fuel : nat) (st : gstate) :
  pool_open (wd st) = true →
  (length (rw (stream_task id rq)) + 20 ≤ fuel)%nat →
  (length (rw (mcp_task id rq (iso (now (sh (wd st)))) (now (sh (wd st))))) + 1
   ≤ fuel)%nat →
  (∃ r st' evs,
     stream_conversion rw iso id rq fuel st = (r, st')
     ∧ out st' = out st ++ evs
     ∧ quiet_until_last evs
     ∧ (closing st = None →
        r = Ok tt
        ∧ ∃ pre x, evs = pre ++ [x]
                   ∧ Forall (λ y, terminal (snd y) = false) pre
                   ∧ terminal (snd x) = true
                   ∧ (worker_event (snd x) ∨ snd x = inactivity_error)))
  ∧ (closing st = None →
     ∃ st' evs,
       mcp_convert_generator rw iso id rq fuel st = (Ok tt, st')
       ∧ out st' = out st ++ evs
       ∧ ends_with_single_terminal mcp_terminal evs).
Proof.
  intros Hp Hfuel Hfuel'. split.
  - destruct (stream_conversion_spec rw iso id rq fuel st Hfuel)
      as (r & st' & evs & Hrun & Hout & _ & _ & Hquiet & _ & Hc).
    exists r, st', ((now (sh (wd st)), initial_progress) :: evs).
    split; [done|]. split; [done|].
    split; [by apply quiet_until_last_cons|].
    intros Hn. destruct (Hc Hn) as [-> [[_ Htr] | [Hp' _]]]; [|congruence].
    split; [done|].
    destruct (plain_trace_single_terminal iso 0 evs Htr) as (pre & x & -> & Hpre & Hx).
    exists ((now (sh (wd st)), initial_progress) :: pre), x.
    split; [done|]. split; [by constructor | done].
  - intros Hn.
    destruct (mcp_generator_exact rw iso id rq fuel st Hn Hp Hfuel')
      as (st' & Hrun & Hout & _).
    eexists st', _. split; [done|]. split; [exact Hout|].
    destruct (mcp_expected_single_terminal id (iso (now (sh (wd st))))
                (now (sh (wd st)))
                (rw (mcp_task id rq (iso (now (sh (wd st)))) (now (sh (wd st)))))
                (now (sh (wd st)))) as (pre & x & -> & Hpre & Hx).
    exists ((now (sh (wd st)), mcp_initial_event id (iso (now (sh (wd st))))) :: pre), x.
    split; [done|]. split; [by constructor | done].
Qed.

(** C8.  Whatever the worker does and wherever the consumer leaves,
    the stream ends (by return, close or cancellation), its id has been
    inserted once and removed once, in this order, and the registry is
    what it was before, without an entry for the id. *)
Theorem C8_registry_entry_lifecycle
    (rw : ConversionTask callback → timeline) (iso : Z → string)
    (id : string) (rq : ConversionRequest) (fuel : nat) (st : gstate) :
  (length (rw (stream_task id rq)) + 20 ≤ fuel)%nat →
  ∃ r st',
    stream_conversion rw iso id rq fuel st = (r, st')
    ∧ (r = Ok tt ∨ r = Exc GeneratorExit ∨ r = Exc CancelledError)
    ∧ history (sh (wd st')) = history (sh (wd st)) ++ [Inserted id; Removed id]
    ∧ active_connections (sh (wd st')) !! id = None
    ∧ active_connections (sh (wd st'))
      = delete id (active_connections (sh (wd st))).
Proof.
  intros Hfuel.
  destruct (stream_conversion_spec rw iso id rq fuel st Hfuel)
    as (r & st' & evs & Hrun & _ & Hh & Hac & _ & Hr & _).
  exists r, st'. split; [done|]. split; [tauto|]. split; [done|].
  split; [|done]. rewrite Hac. apply lookup_delete_eq.
Qed.

(** C6.  Without a registered queue for the task id, either callback
    returns normally and leaves the shared state as it was. *)
Theorem C6_push_without_channel (s : shared) (task_id : string)
    (percentage : Z) (message : string) :
  active_connections s !! task_id = None →
  progress_callback task_id percentage message s = inr s
  ∧ ∀ created_at start_time id',
      mcp_progress_callback task_id created_at start_time id' percentage message s
      = inr s.
Proof.
  intros Hnone. apply contains_false in Hnone as Hc. split.
  - destruct (progress_callback_cases task_id percentage message s)
      as [[_ H] | (e & _ & [q Hq] & _)]; [done | congruence].
  - intros created_at start_time id'. unfold mcp_progress_callback.
    rewrite Hc.
    destruct (percentage =? 100); [|destruct (percentage =? -1)]; done.
Qed.

(** C4.  One turn of the loop of the plain stream: when the wait of 15
    seconds times out, a heartbeat is emitted and the counter grows by
    15, and if it has then reached 300 the inactivity error follows and
    the loop stops; when an event arrives it is relayed and the counter
    keeps its value (the loop stops only if the event is terminal).  Over
    a whole stream: at most 20 heartbeats are emitted, and a stream that
    ends with the inactivity error has emitted exactly 20, whatever
    arrived in between. *)
Theorem C4_heartbeat_accounting (iso : Z → string) (id : string) (timer : Z)
    (st : gstate) (o : option json) (w' : world) :
  closing st = None →
  await_queue id (script (wd st)) 15 (wd st) = (o, w') →
  match o with
  | None =>
      stream_iteration iso id timer st
      = (Ok (if 300 <=? timer + 15 then inr tt else inl (timer + 15)),
         {| wd := w'; closing := None;
            out := out st
                   ++ (now (sh w'), heartbeat_at iso (now (sh w')))
                      :: (if 300 <=? timer + 15
                          then [(now (sh w'), inactivity_error)] else []) |})
  | Some e =>
      stream_iteration iso id timer st
      = (Ok (if terminal e then inr tt else inl timer),
         {| wd := w'; closing := None; out := out st ++ [(now (sh w'), e)] |})
  end
  ∧ ∀ rw rq fuel,
      pool_open (wd st) = true →
      (length (rw (stream_task id rq)) + 20 ≤ fuel)%nat →
      ∃ st' evs,
        stream_conversion rw iso id rq fuel st = (Ok tt, st')
        ∧ out st' = out st ++ evs
        ∧ (heartbeats evs ≤ 20)%nat
        ∧ ∀ t, last evs = Some (t, inactivity_error) → heartbeats evs = 20%nat.
Proof.
  intros Hcl Hawait. split.
  - unfold stream_iteration, gtry_except, gbind, wait_for_queue_get, yield,
      get_shared, gret. rewrite Hcl, Hawait.
    destruct o as [e|]; cbn.
    + fold (terminal e). by destruct (terminal e).
    + destruct (300 <=? timer + 15); cbn; [|done]. by rewrite <- app_assoc.
  - intros rw rq fuel Hp Hfuel.
    destruct (stream_conversion_spec rw iso id rq fuel st Hfuel)
      as (r & st' & evs & Hrun & Hout & _ & _ & _ & _ & Hc).
    destruct (Hc Hcl) as [-> [[_ Htr] | [Hp' _]]]; [|congruence].
    exists st', ((now (sh (wd st)), initial_progress) :: evs).
    split; [done|]. split; [done|].
    destruct (plain_trace_heartbeats iso 0 evs Htr) as [H1 H2].
    unfold heartbeats in *. cbn. split; [lia|].
    intros t. rewrite last_cons_nonempty by (by eapply plain_trace_nonempty).
    intros Hl. by rewrite (H2 t Hl).
Qed.







(** * Further properties of the code *)

(** ** The validators of the request *)

Lemma validate_content_sources_passes v values :
  values !! "input_file" = None → validate_content_sources v values = inr v.
Proof.
  intros H. unfold validate_content_sources. rewrite H. by repeat case_match.
Qed.

Lemma advanced_option (f : string) :
  bool_decide (Some f ∈ Some <$> advanced_formats)
  = bool_decide (f ∈ advanced_formats).
Proof. apply bool_decide_ext, (list_elem_of_fmap_inj Some _). Qed.

(** What the construction does, field by field. *)
Lemma init_unfold lower listing c i fi fo o :
  ConversionRequest__init__ lower listing c i fi fo o
  = match validate_formats lower listing fi, validate_formats lower listing fo with
    | inr fi', inr fo' =>
        if bool_decide (fo' ∈ advanced_formats) && negb (truthy o)
        then inl [("output_file",
                   ValueError ("output_file is required for " +:+ fo' +:+ " format"))]
        else inr {| contents := c; input_file := i; input_format := fi';
                    output_format := fo'; output_file := o |}
    | inr _, inl e => inl [("output_format", e)]
    | inl e, inr fo' =>
        inl (("input_format", e)
             :: if bool_decide (fo' ∈ advanced_formats) && negb (truthy o)
                then [("output_file",
                       ValueError ("output_file is required for " +:+ fo'
                                   +:+ " format"))]
                else [])
    | inl e, inl e' => inl [("input_format", e); ("output_format", e')]
    end.
Proof.
  unfold ConversionRequest__init__.
  cbn [fst snd].
  rewrite (validate_content_sources_passes c ∅) by done.
  cbn [field_outcome fst snd].
  rewrite (validate_content_sources_passes i) by done.
  cbn [field_outcome fst snd].
  destruct (validate_formats lower listing fi) as [e|fi'],
           (validate_formats lower listing fo) as [e'|fo'];
    cbn [sum_map field_outcome fst snd app]; unfold validate_output_file;
    simplify_map_eq; rewrite ?advanced_option; cbn [fmt].
  all: try reflexivity.
  all: by destruct (bool_decide _ && _).
Qed.

Lemma validate_formats_inr lower listing v f :
  validate_formats lower listing v = inr f ↔ lower v ∈ supported_formats ∧ f = lower v.
Proof.
  unfold validate_formats.
  destruct (decide (lower v ∈ supported_formats)) as [H|H].
  - rewrite (bool_decide_eq_true_2 _ H). cbn. intuition congruence.
  - rewrite (bool_decide_eq_false_2 _ H). cbn. intuition congruence.
Qed.

Lemma init_inr_iff (lower : string → string) (listing : string)
    (c i : option string) (fi fo : string) (o : option string)
    (rq : ConversionRequest) :
  ConversionRequest__init__ lower listing c i fi fo o = inr rq
  ↔ lower fi ∈ supported_formats
    ∧ lower fo ∈ supported_formats
    ∧ (lower fo ∈ advanced_formats → truthy o = true)
    ∧ rq = {| contents := c; input_file := i; input_format := lower fi;
              output_format := lower fo; output_file := o |}.
Proof.
  rewrite init_unfold. unfold validate_formats.
  do 2 case_bool_decide; cbn [negb]; try (intuition congruence).
  case_bool_decide; destruct (truthy o); cbn; intuition congruence.
Qed.

(** X1.  A request is accepted exactly when both formats, lower-cased,
    are supported and an output file is given (not [None], not empty)
    whenever the lower-cased output format is one of pdf, docx, rst,
    latex, epub.  The accepted request holds the lower-cased formats and
    the other fields as they were given.  Neither [contents] nor
    [input_file] plays a part: [validate_content_sources] tests fields
    that are not yet among the validated ones when it runs. *)
Theorem request_accepted_iff (lower : string → string) (listing : string)
    (c i : option string) (fi fo : string) (o : option string)
    (rq : ConversionRequest) :
  ConversionRequest__init__ lower listing c i fi fo o = inr rq
  ↔ lower fi ∈ supported_formats
    ∧ lower fo ∈ supported_formats
    ∧ (lower fo ∈ advanced_formats → truthy o = true)
    ∧ rq = {| contents := c; input_file := i; input_format := lower fi;
              output_format := lower fo; output_file := o |}.
Proof. apply init_inr_iff. Qed.

(** X2.  Constructing a request anew from the fields of an accepted one
    gives the same request: validation has nothing left to change, given
    that lower-casing leaves the supported format names as they are. *)
Theorem accepted_request_revalidates (lower : string → string)
    (listing : string) (c i : option string) (fi fo : string)
    (o : option string) (rq : ConversionRequest) :
  Forall (λ f, lower f = f) supported_formats →
  ConversionRequest__init__ lower listing c i fi fo o = inr rq →
  ConversionRequest__init__ lower listing (contents rq) (input_file rq)
    (input_format rq) (output_format rq) (output_file rq) = inr rq.
Proof.
  intros Hl H. apply init_inr_iff in H as (Hi & Ho & Ha & ->). cbn.
  rewrite Forall_forall in Hl.
  apply init_inr_iff. rewrite !(Hl _ Hi), !(Hl _ Ho). done.
Qed.

(** X3.  A rejected request carries one or two errors, none of them for
    [contents] or [input_file].  A format is reported exactly when its
    lower-cased value is unsupported; the missing output file is reported
    exactly when the output format was accepted, asks for a file and none
    is given, hence never together with an error for [output_format]. *)
Theorem rejection_errors (lower : string → string) (listing : string)
    (c i : option string) (fi fo : string) (o : option string)
    (errors : list (string * exn)) :
  ConversionRequest__init__ lower listing c i fi fo o = inl errors →
  (1 ≤ length errors ≤ 2)%nat
  ∧ errors.*1 ⊆ ["input_format"; "output_format"; "output_file"]
  ∧ ("input_format" ∈ errors.*1 ↔ lower fi ∉ supported_formats)
  ∧ ("output_format" ∈ errors.*1 ↔ lower fo ∉ supported_formats)
  ∧ ("output_file" ∈ errors.*1
     ↔ lower fo ∈ supported_formats ∧ lower fo ∈ advanced_formats
       ∧ truthy o = false).
Proof.
  rewrite init_unfold. unfold validate_formats.
  do 2 case_bool_decide; cbn [negb]; try case_bool_decide;
    try destruct (truthy o); cbn; intros [= <-]; cbn;
    (split; [lia|]);
    (split; [unfold subseteq, list_subseteq; intros x Hx; in_log Hx; subst;
             mem_true|]);
    (split; [|split]); (split; intros Hx);
    first [ mem_true | mem_false Hx | intuition discriminate ].
Qed.

Lemma run_callbacks (P : Platform) (CB : Type) (task : ConversionTask CB)
    (d0 : gset string) :
  (∃ result m50,
     fst (_process_conversion P task (fresh d0)) = inr result
     ∧ callbacks (log (snd (_process_conversion P task (fresh d0))))
       = opening (task_id task)
         ++ [(task_id task, 50, m50);
             (task_id task, 75, "Finalizing conversion");
             (task_id task, 100, "Conversion complete")])
  ∨ (∃ e pre,
       fst (_process_conversion P task (fresh d0))
       = inl (if is_Exception e
              then ValueError ("Error during conversion: " +:+ str e) else e)
       ∧ (pre = [] ∨ ∃ m50, pre = [(task_id task, 50, m50)])
       ∧ callbacks (log (snd (_process_conversion P task (fresh d0))))
         = opening (task_id task) ++ pre
           ++ (if is_Exception e
               then [(task_id task, -1, "Error: " +:+ str e)] else [])).
Proof.
  unfold fresh, opening.
  run_worker_body.
  all: try (left; do 2 eexists; split; reflexivity).
  all: right.
  all: match goal with
       | H : is_Exception ?e = _ |- _ => exists e; rewrite H
       end.
  all: first
    [ exists []; split; [reflexivity|]; split; [by left | reflexivity]
    | eexists [(_, _, _)]; split; [reflexivity|];
      split; [right; by eexists | reflexivity] ].
Qed.


Lemma engine_calls_by_mode (P : Platform) (CB : Type)
    (task : ConversionTask CB) (d0 : gset string) (c : engine_call) :
  c ∈ engine_calls (log (snd (_process_conversion P task (fresh d0)))) →
  mode_call P (request task) d0 (select_mode (request task)) c.
Proof.
  revert c. unfold select_mode, mode_call, fresh.
  run_worker_body; intros c Hc; cbn in Hc; in_log Hc; simplify_eq; eauto.
Qed.




(** X6.  What a successful run returns.  In the two modes that write a
    file it is the text
    ["Content successfully converted and saved to: <output_file>"]; in
    the two modes that return a string it is the text the engine
    returned, the engine having been called on the disk the task started
    on and having left the disk the task ends on. *)
Theorem result_by_mode (P : Platform) (CB : Type)
    (task : ConversionTask CB) (d0 : gset string) (result : string) :
  fst (_process_conversion P task (fresh d0)) = inr result →
  match select_mode (request task) with
  | FileToFile | StringToFile =>
      result = "Content successfully converted and saved to: "
               +:+ fmt (output_file (request task))
  | FileToString =>
      convert_file P (fmt (input_file (request task)))
        (output_format (request task)) None (extra_args_for (request task)) d0
      = inr (result, fs (snd (_process_conversion P task (fresh d0))))
  | StringToString =>
      convert_text P (contents (request task)) (output_format (request task))
        (input_format (request task)) (extra_args_for (request task)) d0
      = inr (result, fs (snd (_process_conversion P task (fresh d0))))
  end.
Proof.
  unfold select_mode, fresh.
  run_worker_body; intros Hr; simplify_eq; try reflexivity; try done.
Qed.




(** ** The callbacks of the two streams *)

Lemma mcp_progress_callback_cases (id created_at : string) (start_time : Z)
    (id' : string) (p : Z) (m : string) (s : shared) :
  (active_connections s !! id = None
   ∧ mcp_progress_callback id created_at start_time id' p m s = inr s)
  ∨ (is_Some (active_connections s !! id)
     ∧ mcp_progress_callback id created_at start_time id' p m s
       = inr (push id (mcp_event_data id created_at start_time (now s) p m) s)).
Proof.
  unfold mcp_progress_callback.
  destruct (contains id s) eqn:Hc.
  - right. apply contains_true in Hc as Hs. split; [done|]. destruct Hs as [q Hq].
    unfold queue_put, getitem, push, queue, mcp_event_data. rewrite Hq. cbn.
    destruct (p =? 100); [|destruct (p =? -1)]; done.
  - left. apply contains_false in Hc. split; [done|].
    destruct (p =? 100); [|destruct (p =? -1)]; done.
Qed.

Lemma progress_callback_push (id : string) (p : Z) (m : string) (s : shared) :
  is_Some (active_connections s !! id) →
  progress_callback id p m s = inr (push id (plain_event_data p m) s).
Proof.
  intros [q Hq]. unfold progress_callback.
  rewrite (proj2 (contains_true id s)) by eauto.
  unfold queue_put, getitem, push, queue, plain_event_data. rewrite Hq. cbn.
  destruct (p =? 100); [|destruct (p =? -1)]; done.
Qed.


(** ** The buffered endpoint *)

Lemma resolve_callbacks (l : list obs) (f : future) :
  resolve l f
  = foldl (λ f c, convert_progress_callback c.1.1 c.1.2 c.2 f) f (callbacks l).
Proof.
  unfold resolve, callbacks. revert f.
  induction l as [|[id p m|c ok] l IH]; intros f; cbn; by rewrite ?IH.
Qed.

Lemma convert_contents_open (P : Platform) (id : string) (rq : ConversionRequest)
    (pool : WorkerPool) (d0 : gset string) :
  convert_contents P id rq true pool d0
  = (match resolve (log (snd (_process_conversion P (convert_task id rq)
                                (fresh d0)))) None with
     | Some (inr result) => Some (inr (success_response result))
     | Some (inl e) =>
         if is_Exception e then Some (inr (error_response (str e)))
         else Some (inl e)
     | None => None
     end,
     _task_done id (Worker.submit_task (convert_task id rq) pool),
     fs (snd (_process_conversion P (convert_task id rq) (fresh d0)))).
Proof.
  unfold convert_contents, convert_task, fresh. cbn [fst snd].
  destruct (resolve _ None) as [[e|r]|]; cbn; try done.
  by destruct (is_Exception e).
Qed.

(** X10.  When the body returns, [/convert] answers with status 200 and
    ["status": "success"]; the [result] of the answer is the message of
    the callback with 100, ["Conversion complete"], whatever text the
    body has returned.  The entry of the task is gone from the pool. *)
Theorem convert_contents_success (P : Platform) (id : string)
    (rq : ConversionRequest) (pool : WorkerPool) (d0 : gset string)
    (result : string) :
  fst (_process_conversion P (convert_task id rq) (fresh d0)) = inr result →
  convert_contents P id rq true pool d0
  = (Some (inr (success_response "Conversion complete")),
     _task_done id (Worker.submit_task (convert_task id rq) pool),
     fs (snd (_process_conversion P (convert_task id rq) (fresh d0)))).
Proof.
  intros Hr. rewrite convert_contents_open, resolve_callbacks.
  destruct (run_callbacks P _ (convert_task id rq) d0)
    as [(r & m50 & _ & Hc) | (e & pre & Hr' & _)].
  - rewrite Hc. reflexivity.
  - rewrite Hr in Hr'. discriminate.
Qed.

(** X11.  When the body raises [ValueError "Error during conversion: m"],
    [/convert] answers with status 500 and the message ["Error: m"] of
    the callback with -1; with the pool shut down it answers with status
    500 and the message of the executor, and neither the disk nor the
    pool is touched. *)
Theorem convert_contents_failure (P : Platform) (id : string)
    (rq : ConversionRequest) (pool : WorkerPool) (d0 : gset string)
    (message : string) :
  fst (_process_conversion P (convert_task id rq) (fresh d0))
  = inl (ValueError ("Error during conversion: " +:+ message)) →
  convert_contents P id rq true pool d0
  = (Some (inr (error_response ("Error: " +:+ message))),
     _task_done id (Worker.submit_task (convert_task id rq) pool),
     fs (snd (_process_conversion P (convert_task id rq) (fresh d0))))
  ∧ convert_contents P id rq false pool d0
    = (Some (inr (error_response "cannot schedule new futures after shutdown")),
       pool, d0).
Proof.
  intros Hr. split; [|reflexivity].
  rewrite convert_contents_open, resolve_callbacks.
  destruct (run_callbacks P _ (convert_task id rq) d0)
    as [(r & m50 & Hr' & _) | (e & pre & Hr' & Hpre & Hc)].
  { rewrite Hr in Hr'. discriminate. }
  rewrite Hc. rewrite Hr in Hr'.
  destruct (is_Exception e) eqn:He.
  - injection Hr' as Hm. apply (inj (String.append _)) in Hm. rewrite <- Hm.
    destruct Hpre as [-> | [m50 ->]]; reflexivity.
  - injection Hr' as <-. discriminate He.
Qed.

(** ** The protocol endpoint *)

Lemma yield_spec (e : json) (st : gstate) :
  wd (snd (yield e st)) = wd st
  ∧ out (snd (yield e st)) = out st ++ [(now (sh (wd st)), e)]
  ∧ (closing st = None → yield e st
       = (Ok tt, {| wd := wd st; closing := None;
                    out := out st ++ [(now (sh (wd st)), e)] |})).
Proof.
  unfold yield. destruct (closing st) as [[|n]|]; cbn; repeat split; done.
Qed.

Section Endpoint.
Variable rw : ConversionTask callback → timeline.
Variable iso : Z → string.
Variable lower : string → string.
Variable listing : string.
Variable dd : MCPToolsDiscovery → json.
Variable event_id : string.
Variable fuel : nat.

(** X12.  A tool name other than ["convert-contents"] gives a stream
    of one event: status [error], empty tool name, message
    ["Unknown tool: <name>"].  The registry, the pool and the worker are
    not touched, and the stream returns when its consumer stays. *)
Theorem unknown_tool_single_error (tool c fi fo o : option string) (st : gstate) :
  truthy tool = true → tool ≠ Some "convert-contents" →
  ∃ g, mcp_sse_endpoint rw iso lower listing dd event_id fuel tool c fi fo o
       = inr g
       ∧ wd (snd (g st)) = wd st
       ∧ out (snd (g st))
         = out st ++ [(now (sh (wd st)),
                       unknown_tool_event event_id (iso (now (sh (wd st)))) tool)]
       ∧ (closing st = None → fst (g st) = Ok tt).
Proof.
  intros Ht Hne. unfold mcp_sse_endpoint. rewrite Ht. cbn [negb].
  rewrite bool_decide_eq_false_2 by done.
  eexists. split; [reflexivity|].
  unfold mcp_error_generator, gbind, get_shared.
  destruct (yield_spec (unknown_tool_event event_id (iso (now (sh (wd st)))) tool) st)
    as (Hw & Ho & Hr).
  split; [exact Hw|]. split; [exact Ho|].
  intros Hc. unfold unknown_tool_event in Hr. by rewrite (Hr Hc).
Qed.

(** X13.  A missing or empty tool name gives a stream of one event,
    the discovery of the tools; nothing else changes. *)
Theorem discovery_without_tool (tool c fi fo o : option string) (st : gstate) :
  truthy tool = false →
  ∃ g, mcp_sse_endpoint rw iso lower listing dd event_id fuel tool c fi fo o
       = inr g
       ∧ wd (snd (g st)) = wd st
       ∧ out (snd (g st))
         = out st ++ [(now (sh (wd st)),
                       JObj [("type", JStr "discovery");
                             ("data", dd tools_discovery)])]
       ∧ (closing st = None → fst (g st) = Ok tt).
Proof.
  intros Ht. unfold mcp_sse_endpoint. rewrite Ht. cbn [negb].
  eexists. split; [reflexivity|].
  unfold mcp_tool_discovery_generator.
  destruct (yield_spec (JObj [("type", JStr "discovery");
                              ("data", dd tools_discovery)]) st)
    as (Hw & Ho & Hr).
  split; [exact Hw|]. split; [exact Ho|].
  intros Hc. by rewrite (Hr Hc).
Qed.

(** X14.  What the discovery advertises is what the endpoint accepts:
    called by the advertised tool name with advertised values of
    [input_format] and [output_format] (and an output file where the
    format asks for one), it builds the request with these values and
    starts the conversion stream; called without formats it behaves as
    if called with the advertised defaults. *)
Theorem advertised_interface (c o : option string) (fi fo : string) :
  Forall (λ f, lower f = f) supported_formats →
  fi ∈ advertised_values "input_format" →
  fo ∈ advertised_values "output_format" →
  (fo ∈ advanced_formats → truthy o = true) →
  Forall (λ t, mcp_sse_endpoint rw iso lower listing dd event_id fuel
                 (Some (tool_name t)) c (Some fi) (Some fo) o
               = inr (mcp_convert_generator rw iso event_id
                        {| contents := c; input_file := None;
                           input_format := fi; output_format := fo;
                           output_file := o |} fuel))
    (tools tools_discovery)
  ∧ (∀ tool,
       mcp_sse_endpoint rw iso lower listing dd event_id fuel tool c None None o
       = mcp_sse_endpoint rw iso lower listing dd event_id fuel tool c
           (advertised_default "input_format")
           (advertised_default "output_format") o).
Proof.
  intros Hl Hfi Hfo Ho. rewrite Forall_forall in Hl. split; [|reflexivity].
  assert (Hsi : fi ∈ supported_formats).
  { vm_compute in Hfi. in_log Hfi; subst; apply (bool_decide_unpack _); by vm_compute. }
  assert (Hso : fo ∈ supported_formats).
  { vm_compute in Hfo. in_log Hfo; subst; apply (bool_decide_unpack _); by vm_compute. }
  assert (Hne_i : fi ≠ "").
  { intros ->. vm_compute in Hfi. in_log Hfi. }
  assert (Hne_o : fo ≠ "").
  { intros ->. vm_compute in Hfo. in_log Hfo. }
  repeat constructor. cbn [tool_name convert_tool].
  unfold mcp_sse_endpoint. cbn [truthy negb].
  rewrite bool_decide_eq_true_2 by done.
  assert (Hor : ∀ f d, f ≠ "" → or_else (Some f) d = f).
  { intros f d Hf. unfold or_else. cbn. apply String.eqb_neq in Hf. by rewrite Hf. }
  rewrite !Hor by done.
  assert (Hinit : ConversionRequest__init__ lower listing c None fi fo o
                  = inr {| contents := c; input_file := None; input_format := fi;
                           output_format := fo; output_file := o |}).
  { apply init_inr_iff. rewrite !(Hl _ Hsi), !(Hl _ Hso). done. }
  by rewrite Hinit.
Qed.

(** X15.  A conversion requested over the protocol endpoint never
    reads a file named by the caller: the request it builds has no input
    file, the given contents, and lower-cased formats (["markdown"] and
    ["html"] when missing or empty), so every engine call of the body is
    [convert_text] on the contents or [convert_file] on the temporary
    file the body has created itself. *)
Theorem protocol_conversion_reads_no_file (c fi fo o : option string)
    (g : G unit) :
  mcp_sse_endpoint rw iso lower listing dd event_id fuel
    (Some "convert-contents") c fi fo o = inr g →
  ∃ rq,
    g = mcp_convert_generator rw iso event_id rq fuel
    ∧ contents rq = c ∧ input_file rq = None ∧ output_file rq = o
    ∧ input_format rq = lower (or_else fi "markdown")
    ∧ output_format rq = lower (or_else fo "html")
    ∧ ∀ (P : Platform) (CB : Type) (cb : CB) (d0 : gset string) (call : engine_call),
        call ∈ engine_calls
                 (log (snd (_process_conversion P
                              {| request := rq; task_id := event_id;
                                 Worker.progress_callback := cb |} (fresh d0)))) →
        call = ConvertText c (output_format rq) (input_format rq)
                 (extra_args_for rq)
        ∨ ∃ temp_path,
            NamedTemporaryFile P ("." +:+ input_format rq) d0 = inr temp_path
            ∧ call = ConvertFile temp_path (output_format rq) o
                       (extra_args_for rq).
Proof.
  unfold mcp_sse_endpoint. cbn [truthy String.eqb Ascii.eqb Bool.eqb negb].
  rewrite bool_decide_eq_true_2 by done.
  destruct (ConversionRequest__init__ _ _ _ _ _ _ _) as [errs|rq] eqn:Hinit;
    [discriminate|].
  intros [= <-]. exists rq. split; [reflexivity|].
  apply init_inr_iff in Hinit as (_ & _ & _ & ->). cbn.
  repeat (split; [reflexivity|]).
  intros P CB cb d0 call Hcall.
  apply engine_calls_by_mode in Hcall. cbn in Hcall.
  unfold select_mode in Hcall. cbn in Hcall.
  destruct (truthy c && truthy o); cbn in Hcall; [right|left]; done.
Qed.

End Endpoint.

(** ** The protocol-wrapped stream on every way out *)

Lemma fire_ok_mcp_task id rq created_at start_time w :
  running w = Some (mcp_task id rq created_at start_time) →
  fire_ok any_event id w.
Proof.
  intros H c s. unfold fire. cbn. rewrite H. cbn.
  destruct (mcp_progress_callback_cases id created_at start_time id c.1 c.2 s)
    as [[_ ->] | [Hs ->]].
  - by left.
  - right. eexists. done.
Qed.

Lemma Forall_any l : Forall any_event l.
Proof. by apply Forall_forall. Qed.

Lemma mcp_quiet_cons x l :
  mcp_terminal (snd x) = false → mcp_quiet_until_last l →
  mcp_quiet_until_last (x :: l).
Proof.
  intros Hx (pre & post & -> & Hpre & Hpost).
  exists (x :: pre), post. split; [done|]. split; [by constructor | done].
Qed.

Lemma mcp_quiet_short l : (length l ≤ 1)%nat → mcp_quiet_until_last l.
Proof. intros H. exists [], l. split; [done|]. split; [constructor | done]. Qed.

Lemma mcp_quiet_snoc l x :
  Forall (λ y, mcp_terminal (snd y) = false) l → mcp_quiet_until_last (l ++ [x]).
Proof. intros H. exists l, [x]. split; [done|]. split; [done | cbn; lia]. Qed.

Section ProtocolExits.
Variable id : string.

Lemma mcp_iteration_spec (st : gstate) :
  fire_ok any_event id (wd st) →
  ∃ r st' its,
    mcp_iteration id tt st = (r, st')
    ∧ out st' = out st ++ its
    ∧ same_shape id (sh (wd st)) (sh (wd st'))
    ∧ running (wd st') = running (wd st)
    ∧ (length its ≤ 1)%nat
    ∧ match r with
      | Ok (inl _) =>
          Forall (λ x, mcp_terminal (snd x) = false) its
          ∧ (measure id st' < measure id st)%nat
      | Ok (inr _) => True
      | Exc x =>
          (x = TimeoutError ∧ its = [])
          ∨ (x = CancelledError ∨ x = GeneratorExit) ∧ closing st ≠ None
      | Hung => False
      end
    ∧ (closing st = None → closing st' = None).
Proof.
  intros Hf.
  pose proof (await_queue_spec any_event id (script (wd st)) 60 (wd st) Hf
                (Forall_any _)) as (A1 & A2 & A3 & A4 & A5 & A6).
  unfold mcp_iteration, gbind, wait_for_queue_get, yield, gret, measure.
  destruct (await_queue id (script (wd st)) 60 (wd st)) as [o w'] eqn:E.
  cbn [fst snd] in *.
  destruct o as [e|]; [destruct A6 as [_ A7]|].
  - destruct (mcp_terminal e) eqn:Ht;
      destruct (closing st) as [[|[|n]]|] eqn:Ec; cbn;
      try change (get_in "status" ["complete"; "error"] e) with (mcp_terminal e);
      rewrite ?Ht;
      eexists _, _, _; (split; [reflexivity|]); cbn;
      (split; [first [ symmetry; apply app_nil_r | reflexivity ]|]);
      repeat (split; [first [done | cbn; lia]|]).
    all: try (split; [|done]); auto.
    all: try (split; [by repeat constructor | cbn; lia]).
    all: try done.
  - destruct (closing st) as [[|n]|] eqn:Ec; cbn;
      eexists _, _, _; (split; [reflexivity|]); cbn;
      (split; [symmetry; apply app_nil_r|]);
      repeat (split; [first [done | cbn; lia]|]);
      (split; [|done]); auto.
Qed.

Lemma mcp_loop_spec :
  ∀ (fuel : nat) (st : gstate),
    fire_ok any_event id (wd st) →
    (measure id st + 1 ≤ fuel)%nat →
    ∃ r st' evs,
      while fuel (mcp_iteration id) tt st = (r, st')
      ∧ out st' = out st ++ evs
      ∧ same_shape id (sh (wd st)) (sh (wd st'))
      ∧ mcp_quiet_until_last evs
      ∧ match r with
        | Ok _ => True
        | Exc x =>
            (x = TimeoutError ∧ Forall (λ y, mcp_terminal (snd y) = false) evs)
            ∨ (x = CancelledError ∨ x = GeneratorExit) ∧ closing st ≠ None
        | Hung => False
        end
      ∧ (closing st = None → closing st' = None).
Proof.
  induction fuel as [|fuel IH]; intros st Hf Hfuel; [lia|].
  destruct (mcp_iteration_spec st Hf)
    as (r & st1 & its & Hrun & Hout & Hshape & Hrunning & Hlen & Hcases & Hcl).
  cbn [while]. unfold gbind. rewrite Hrun.
  assert (Hf1 : fire_ok any_event id (wd st1))
    by (by apply (fire_ok_running any_event id (wd st))).
  destruct r as [[[]|[]]| x |]; [| | |done].
  - destruct Hcases as [Hnt Hm].
    destruct (IH st1) as (r & st' & evs & Hw & Hout' & Hshape' & Hq & Hr & Hcl');
      [done | lia |].
    exists r, st', (its ++ evs). rewrite Hw.
    split; [done|]. split; [by rewrite Hout', Hout, <- app_assoc|].
    split; [by eapply same_shape_trans|].
    split.
    { destruct Hq as (pre & post & -> & Hpre & Hpost).
      exists (its ++ pre), post. rewrite app_assoc. split; [done|].
      split; [by apply Forall_app | done]. }
    split; [|by auto].
    destruct r as [|x|]; [done| |done].
    destruct Hr as [[-> Hall] | [Hx Hn]]; [left | right].
    + split; [done|]. by apply Forall_app.
    + split; [done|]. intros Hc. by apply Hn, Hcl.
  - exists (Ok tt), st1, its. split; [done|]. split; [done|]. split; [done|].
    split; [by apply mcp_quiet_short | done].
  - exists (Exc x), st1, its. split; [done|]. split; [done|]. split; [done|].
    split; [by apply mcp_quiet_short|]. split; [|done].
    destruct Hcases as [[-> ->] | H]; [left | by right]. done.
Qed.

Lemma yield_cases (e : json) (st : gstate) :
  ∃ r st', yield e st = (r, st')
           ∧ wd st' = wd st
           ∧ out st' = out st ++ [(now (sh (wd st)), e)]
           ∧ (r = Ok tt ∨ r = Exc GeneratorExit)
           ∧ (closing st = None → r = Ok tt ∧ closing st' = None).
Proof.
  unfold yield. destruct (closing st) as [[|n]|]; eexists _, _;
    (split; [reflexivity|]); cbn; (split; [done|]); (split; [done|]);
    (split; [auto | done]).
Qed.

(** The loop with its [except asyncio.TimeoutError] clause. *)
Lemma mcp_guarded_loop_spec (f : shared → json) (fuel : nat) (st : gstate) :
  (∀ s, mcp_terminal (f s) = true) →
  fire_ok any_event id (wd st) →
  (measure id st + 1 ≤ fuel)%nat →
  ∃ r st' evs,
    gtry_except is_TimeoutError (while fuel (mcp_iteration id) tt)
      (fun _ => gbind get_shared (fun s => yield (f s))) st = (r, st')
    ∧ out st' = out st ++ evs
    ∧ same_shape id (sh (wd st)) (sh (wd st'))
    ∧ mcp_quiet_until_last evs
    ∧ (r = Ok tt ∨ r = Exc GeneratorExit ∨ r = Exc CancelledError)
    ∧ (closing st = None → r = Ok tt).
Proof.
  intros Hterm Hf Hfuel.
  destruct (mcp_loop_spec fuel st Hf Hfuel)
    as (r & st1 & evs & Hw & Hout & Hshape & Hq & Hr & Hcl).
  unfold gtry_except. rewrite Hw.
  destruct r as [[]|x|]; [| |done].
  - exists (Ok tt), st1, evs. auto 8.
  - destruct Hr as [[-> Hall] | [Hx Hn]].
    + cbn [is_TimeoutError]. unfold gbind, get_shared.
      destruct (yield_cases (f (sh (wd st1))) st1)
        as (r & st2 & -> & Hwd & Hout2 & Hr & Hcl2).
      exists r, st2, (evs ++ [(now (sh (wd st1)), f (sh (wd st1)))]).
      split; [done|]. split; [by rewrite Hout2, Hout, <- app_assoc|].
      split; [by rewrite Hwd|]. split; [by apply mcp_quiet_snoc|].
      split; [destruct Hr as [-> | ->]; auto|].
      intros Hc. by apply Hcl2, Hcl.
    + assert (Hnt : is_TimeoutError x = false) by (by destruct Hx as [-> | ->]).
      rewrite Hnt. exists (Exc x), st1, evs.
      split; [done|]. split; [done|]. split; [done|]. split; [done|].
      split; [destruct Hx as [-> | ->]; auto | done].
Qed.

End ProtocolExits.




Lemma mcp_convert_generator_unfold rw iso id rq fuel st :
  mcp_convert_generator rw iso id rq fuel st
  = gtry_finally
      (gtry_except is_Exception
         (gbind (update_shared (fun s => inr (setitem id [] s))) (fun _ =>
          gbind (yield (mcp_initial_event id (iso (now (sh (wd st))))))
            (fun _ =>
          gbind (submit_task rw
                   (mcp_task id rq (iso (now (sh (wd st)))) (now (sh (wd st)))))
            (fun _ =>
          gtry_except is_TimeoutError (while fuel (mcp_iteration id) tt)
            (fun _ => gbind get_shared (fun s =>
               yield (mcp_timeout_event id (iso (now (sh (wd st))))
                        (now (sh (wd st))) (now s))))))))
         (fun e => gbind get_shared (fun s =>
            yield (mcp_error_event id (iso (now (sh (wd st)))) (now (sh (wd st)))
                     (now s) (str e)))))
      (finalizer id) st.
Proof. reflexivity. Qed.

(** Every way through [mcp_convert_generator]. *)
Lemma mcp_convert_generator_spec (rw : ConversionTask callback → timeline)
    (iso : Z → string) (id : string) (rq : ConversionRequest) (fuel : nat)
    (st : gstate) :
  (length (rw (mcp_task id rq (iso (now (sh (wd st)))) (now (sh (wd st))))) + 1
   ≤ fuel)%nat →
  ∃ r st' evs,
    mcp_convert_generator rw iso id rq fuel st = (r, st')
    ∧ out st' = out st
                ++ (now (sh (wd st)), mcp_initial_event id (iso (now (sh (wd st)))))
                   :: evs
    ∧ history (sh (wd st')) = history (sh (wd st)) ++ [Inserted id; Removed id]
    ∧ active_connections (sh (wd st'))
      = delete id (active_connections (sh (wd st)))
    ∧ mcp_quiet_until_last evs
    ∧ (r = Ok tt ∨ r = Exc GeneratorExit ∨ r = Exc CancelledError)
    ∧ (closing st = None → r = Ok tt)
    ∧ (closing st = None → pool_open (wd st) = false →
       evs = [(now (sh (wd st)),
               mcp_error_event id (iso (now (sh (wd st)))) (now (sh (wd st)))
                 (now (sh (wd st))) (str pool_shut_down))]).
Proof.
  intros Hfuel. rewrite mcp_convert_generator_unfold.
  set (t0 := now (sh (wd st))) in *.
  set (task := mcp_task id rq (iso t0) t0) in *.
  set (st1 := set_world (with_sh (setitem id [] (sh (wd st))) (wd st)) st).
  assert (Hfinal : ∀ st4, same_shape id (sh (wd st1)) (sh (wd st4)) →
            ∃ st', finalizer id st4 = (Ok tt, st') ∧ out st' = out st4
              ∧ history (sh (wd st')) = history (sh (wd st)) ++ [Inserted id; Removed id]
              ∧ active_connections (sh (wd st'))
                = delete id (active_connections (sh (wd st)))).
  { intros st4 Hs.
    assert (Hs4 : is_Some (active_connections (sh (wd st4)) !! id)).
    { apply Hs. subst st1. cbn. rewrite lookup_insert_eq. eauto. }
    destruct (finalizer_spec id st4 Hs4) as (st' & Hfin & Ho & _ & Hh & Hac).
    exists st'. split; [done|]. split; [done|]. rewrite Hh, Hac. split.
    - destruct Hs as (-> & _). subst st1. cbn. by rewrite <- app_assoc.
    - rewrite (same_shape_delete id _ _ Hs). subst st1. cbn.
      apply delete_insert_eq. }
  unfold gtry_finally, gtry_except at 1.
  unfold gbind at 1. unfold update_shared at 1. fold st1.
  destruct (yield_cases (mcp_initial_event id (iso t0)) st1)
    as (ry & sy & Hy & Hwdy & Houty & Hry & Hcly).
  unfold gbind at 1. rewrite Hy.
  assert (Hnow1 : now (sh (wd st1)) = t0) by reflexivity.
  rewrite Hnow1 in Houty.
  destruct Hry as [-> | ->].
  2:{ (* the consumer leaves at the first event *)
    cbn [is_Exception].
    destruct (Hfinal sy) as (st' & -> & Ho & Hh & Hac); [by rewrite Hwdy|].
    exists (Exc GeneratorExit), st', [].
    split; [done|]. split; [by rewrite Ho, Houty|]. split; [done|].
    split; [done|]. split; [by apply mcp_quiet_short; cbn; lia|].
    split; [auto|].
    split; intros Hc; by destruct (Hcly Hc). }
  unfold gbind at 1. unfold submit_task at 1.
  rewrite Hwdy. change (pool_open (wd st1)) with (pool_open (wd st)).
  destruct (pool_open (wd st)) eqn:Hp.
  - (* the task is submitted *)
    set (st3 := set_world _ sy).
    destruct (mcp_guarded_loop_spec id
                (fun s => mcp_timeout_event id (iso t0) t0 (now s)) fuel st3)
      as (r & st4 & evs & Hrun & Hout & Hshape & Hq & Hr & Hcl);
      [ done
      | by apply (fire_ok_mcp_task id rq (iso t0) t0)
      | unfold measure; subst st3; cbn; unfold queue; cbn;
        rewrite lookup_insert_eq; cbn; fold task; lia |].
    rewrite Hrun.
    assert (Hs4 : same_shape id (sh (wd st1)) (sh (wd st4))) by exact Hshape.
    destruct (Hfinal st4 Hs4) as (st' & Hfin & Ho & Hh & Hac).
    exists r, st', evs.
    assert (Hout' : out st' = out st ++ (t0, mcp_initial_event id (iso t0)) :: evs).
    { rewrite Ho, Hout. subst st3. cbn. rewrite Houty. by rewrite <- app_assoc. }
    assert (Hclose : closing st = None → r = Ok tt).
    { intros Hc. apply Hcl. subst st3. cbn. by apply Hcly. }
    destruct Hr as [-> | [-> | ->]]; cbn [is_Exception]; rewrite Hfin;
      (split; [done|]); (split; [done|]); (split; [done|]); (split; [done|]);
      (split; [done|]); (split; [auto|]); (split; [done|]); done.
  - (* the pool refuses the task *)
    cbn [is_Exception]. unfold gbind, get_shared.
    destruct (yield_cases
                (mcp_error_event id (iso t0) t0 (now (sh (wd sy)))
                   (str (RuntimeError "cannot schedule new futures after shutdown")))
                sy)
      as (r & st4 & -> & Hwd4 & Hout4 & Hr & Hcl4).
    destruct (Hfinal st4) as (st' & Hfin & Ho & Hh & Hac);
      [by rewrite Hwd4, Hwdy|].
    assert (Hnowy : now (sh (wd sy)) = t0) by (by rewrite Hwdy).
    rewrite Hnowy in *.
    exists r, st',
      [(t0, mcp_error_event id (iso t0) t0 t0 (str pool_shut_down))].
    assert (Hout' : out st'
              = out st ++ (t0, mcp_initial_event id (iso t0))
                          :: [(t0, mcp_error_event id (iso t0) t0 t0
                                     (str pool_shut_down))]).
    { rewrite Ho, Hout4, Houty. by rewrite <- app_assoc. }
    assert (Hclose : closing st = None → r = Ok tt).
    { intros Hc. apply Hcl4. by apply Hcly. }
    destruct Hr as [-> | ->]; rewrite Hfin;
      (split; [done|]); (split; [done|]); (split; [done|]); (split; [done|]);
      (split; [by apply mcp_quiet_short; cbn; lia|]); (split; [auto|]);
      (split; [done|]); done.
Qed.

(** X16.  On every way out of the protocol-wrapped stream (return,
    inactivity, refused submission, the consumer leaving at any
    suspension) the registry has gained exactly one insertion and one
    removal of the identifier and has no entry for it afterwards; the
    stream is left by a return or by the two exceptions of a leaving
    consumer, and by a return when the consumer stays. *)
Theorem protocol_registry_lifecycle
    (rw : ConversionTask callback → timeline) (iso : Z → string)
    (id : string) (rq : ConversionRequest) (fuel : nat) (st : gstate) :
  (length (rw (mcp_task id rq (iso (now (sh (wd st)))) (now (sh (wd st))))) + 1
   ≤ fuel)%nat →
  ∃ r st',
    mcp_convert_generator rw iso id rq fuel st = (r, st')
    ∧ (r = Ok tt ∨ r = Exc GeneratorExit ∨ r = Exc CancelledError)
    ∧ (closing st = None → r = Ok tt)
    ∧ history (sh (wd st')) = history (sh (wd st)) ++ [Inserted id; Removed id]
    ∧ active_connections (sh (wd st')) !! id = None
    ∧ active_connections (sh (wd st'))
      = delete id (active_connections (sh (wd st))).
Proof.
  intros Hfuel.
  destruct (mcp_convert_generator_spec rw iso id rq fuel st Hfuel)
    as (r & st' & evs & Hrun & _ & Hh & Hac & _ & Hr & Hc & _).
  exists r, st'. repeat (split; [done|]).
  split; [|done]. rewrite Hac. apply lookup_delete_eq.
Qed.

(** X17.  On every way out the protocol-wrapped stream emits its
    [created] event first, and no event but possibly the last emitted one
    has the status [complete] or [error]. *)
Theorem protocol_nothing_after_terminal
    (rw : ConversionTask callback → timeline) (iso : Z → string)
    (id : string) (rq : ConversionRequest) (fuel : nat) (st : gstate) :
  (length (rw (mcp_task id rq (iso (now (sh (wd st)))) (now (sh (wd st))))) + 1
   ≤ fuel)%nat →
  ∃ evs,
    out (snd (mcp_convert_generator rw iso id rq fuel st)) = out st ++ evs
    ∧ mcp_quiet_until_last evs
    ∧ head evs = Some (now (sh (wd st)),
                       mcp_initial_event id (iso (now (sh (wd st))))).
Proof.
  intros Hfuel.
  destruct (mcp_convert_generator_spec rw iso id rq fuel st Hfuel)
    as (r & st' & evs & Hrun & Hout & _ & _ & Hq & _).
  rewrite Hrun. eexists. split; [exact Hout|]. split; [|done].
  by apply mcp_quiet_cons.
Qed.

(** X18.  Once a stream has ended, on whatever way, an invocation of
    the callback of its task, by a worker that is still running, leaves
    the shared state as it is and does not raise. *)
Theorem late_callbacks_dropped
    (rw : ConversionTask callback → timeline) (iso : Z → string)
    (id : string) (rq : ConversionRequest) (fuel : nat) (st : gstate)
    (p : Z) (m : string) :
  (length (rw (stream_task id rq)) + 20 ≤ fuel)%nat →
  (length (rw (mcp_task id rq (iso (now (sh (wd st)))) (now (sh (wd st))))) + 1
   ≤ fuel)%nat →
  (let s := sh (wd (snd (stream_conversion rw iso id rq fuel st))) in
   Worker.progress_callback (stream_task id rq) id p m s = inr s)
  ∧ (let s := sh (wd (snd (mcp_convert_generator rw iso id rq fuel st))) in
     Worker.progress_callback
       (mcp_task id rq (iso (now (sh (wd st)))) (now (sh (wd st)))) id p m s
     = inr s).
Proof.
  intros Hf1 Hf2. split.
  - destruct (stream_conversion_spec rw iso id rq fuel st Hf1)
      as (r & st' & evs & -> & _ & _ & Hac & _).
    cbn. destruct (progress_callback_cases id p m (sh (wd st')))
      as [[_ H] | (e & _ & [q Hq] & _)]; [done|].
    rewrite Hac, lookup_delete_eq in Hq. done.
  - destruct (mcp_convert_generator_spec rw iso id rq fuel st Hf2)
      as (r & st' & evs & -> & _ & _ & Hac & _).
    cbn. destruct (mcp_progress_callback_cases id (iso (now (sh (wd st))))
                     (now (sh (wd st))) id p m (sh (wd st')))
      as [[_ H] | [[q Hq] _]]; [done|].
    rewrite Hac, lookup_delete_eq in Hq. done.
Qed.

Lemma finalizer_world (id : string) (st : gstate) :
  running (wd (snd (finalizer id st))) = running (wd st)
  ∧ pool (wd (snd (finalizer id st))) = pool (wd st)
  ∧ script (wd (snd (finalizer id st))) = script (wd st).
Proof.
  unfold finalizer, gbind, get_shared, gwhen, update_shared.
  destruct (contains id (sh (wd st))); [|done].
  by destruct (delitem id (sh (wd st))).
Qed.

(** X19.  With the pool shut down, both streams emit their first event
    and then one error event carrying the message of the executor,
    return, start no worker and leave no entry in the registry. *)
Theorem streams_with_pool_shut_down
    (rw : ConversionTask callback → timeline) (iso : Z → string)
    (id : string) (rq : ConversionRequest) (fuel : nat) (st : gstate) :
  closing st = None → pool_open (wd st) = false →
  (∃ st', stream_conversion rw iso id rq fuel st = (Ok tt, st')
          ∧ out st' = out st ++ [(now (sh (wd st)), initial_progress);
                                 (now (sh (wd st)), generator_error pool_shut_down)]
          ∧ running (wd st') = running (wd st)
          ∧ active_connections (sh (wd st'))
            = delete id (active_connections (sh (wd st))))
  ∧ (∃ st', mcp_convert_generator rw iso id rq fuel st = (Ok tt, st')
            ∧ out st'
              = out st ++ [(now (sh (wd st)),
                            mcp_initial_event id (iso (now (sh (wd st)))));
                           (now (sh (wd st)),
                            mcp_error_event id (iso (now (sh (wd st))))
                              (now (sh (wd st))) (now (sh (wd st)))
                              (str pool_shut_down))]
            ∧ running (wd st') = running (wd st)
            ∧ active_connections (sh (wd st'))
              = delete id (active_connections (sh (wd st)))).
Proof.
  intros Hc Hp. split.
  - unfold stream_conversion. unfold gbind at 1. unfold update_shared at 1.
    rewrite event_generator_unfold.
    unfold gtry_finally, gtry_except, gbind, yield, submit_task.
    cbn [closing set_world wd with_sh pool_open]. rewrite Hc.
    cbn [wd with_sh pool_open]. rewrite Hp.
    cbn [is_Exception closing wd out sh with_sh now setitem].
    match goal with
    | |- context [finalizer id ?s] =>
        destruct (finalizer_spec id s) as (st' & Hfin & Ho & _ & _ & Hac);
          [cbn; rewrite lookup_insert_eq; eauto|];
        pose proof (finalizer_world id s) as (Hrun & _)
    end.
    rewrite Hfin in *. cbn [snd] in Hrun. exists st'. split; [done|].
    rewrite Ho, Hac, Hrun. cbn.
    split; [by rewrite <- app_assoc|]. split; [done|]. apply delete_insert_eq.
  - rewrite mcp_convert_generator_unfold.
    unfold gtry_finally, gtry_except, gbind, update_shared, yield, submit_task,
      get_shared.
    cbn [closing set_world wd with_sh pool_open]. rewrite Hc.
    cbn [wd with_sh pool_open]. rewrite Hp.
    cbn [is_Exception closing wd out sh with_sh now setitem].
    match goal with
    | |- context [finalizer id ?s] =>
        destruct (finalizer_spec id s) as (st' & Hfin & Ho & _ & _ & Hac);
          [cbn; rewrite lookup_insert_eq; eauto|];
        pose proof (finalizer_world id s) as (Hrun & _)
    end.
    rewrite Hfin in *. cbn [snd] in Hrun. exists st'. split; [done|].
    rewrite Ho, Hac, Hrun. cbn.
    split; [by rewrite <- app_assoc|]. split; [done|]. apply delete_insert_eq.
Qed.

(** ** The plain stream relays in order *)

Section PlainRelay.
Variable iso : Z → string.
Variable id : string.
Variable rq : ConversionRequest.

Lemma await_queue_plain_event d p m rest w :
  running w = Some (stream_task id rq) →
  active_connections (sh w) !! id = Some [] →
  d < 15 →
  ∃ w', await_queue id ((d, (p, m)) :: rest) 15 w
        = (Some (plain_event_data p m), w')
        ∧ now (sh w') = now (sh w) + d
        ∧ active_connections (sh w') !! id = Some []
        ∧ running w' = running w
        ∧ script w' = rest.
Proof.
  intros Hr Hq Hd. cbn [await_queue].
  unfold queue_pop at 1. rewrite Hq.
  apply Z.ltb_lt in Hd as ->.
  set (w1 := with_sh _ w).
  assert (H1 : sh w1 = push id (plain_event_data p m) (advance d (sh w))).
  { subst w1. cbn. unfold fire. cbn. rewrite Hr. cbn.
    rewrite progress_callback_push; [done|]. cbn. rewrite Hq. eauto. }
  assert (Hpop : queue_pop id (sh w1)
                 = Some (plain_event_data p m,
                         {| now := now (sh w) + d;
                            active_connections :=
                              <[id := []]> (active_connections (sh w1));
                            history := history (sh w) |})).
  { unfold queue_pop. rewrite H1. cbn. rewrite lookup_insert_eq.
    unfold queue. cbn. rewrite Hq. done. }
  destruct rest as [|[d' c'] rest']; cbn [await_queue]; rewrite Hpop;
    eexists; (split; [reflexivity|]); cbn;
    (split; [done|]); (split; [by rewrite lookup_insert_eq|]); done.
Qed.

Lemma await_queue_times_out l w :
  active_connections (sh w) !! id = Some [] →
  match l with [] => True | (d, _) :: _ => 15 ≤ d end →
  ∃ w', await_queue id l 15 w = (None, w')
        ∧ sh w' = advance 15 (sh w)
        ∧ running w' = running w
        ∧ script w' = postponed 15 l.
Proof.
  intros Hq Hl. destruct l as [|[d c] rest]; cbn [await_queue];
    unfold queue_pop; rewrite Hq.
  - eexists. split; [reflexivity|]. done.
  - apply Z.ltb_ge in Hl as ->. eexists. split; [reflexivity|]. done.
Qed.

Lemma plain_event_of_postponed t l n :
  plain_event_of <$> take n (postponed t l) = plain_event_of <$> take n l.
Proof. destruct l as [|[d c] rest]; [done|]. by destruct n. Qed.

Lemma elapsed_postponed t l : l ≠ [] → elapsed (postponed t l) = elapsed l - t.
Proof.
  intros H. destruct l as [|[d c] rest]; [done|]. unfold elapsed. cbn. lia.
Qed.

Lemma elapsed_nonneg l : Forall (λ c, 0 ≤ fst c) l → 0 ≤ elapsed l.
Proof. unfold elapsed. induction 1; cbn; lia. Qed.

Lemma without_heartbeats_app l1 l2 :
  without_heartbeats (l1 ++ l2) = without_heartbeats l1 ++ without_heartbeats l2.
Proof. unfold without_heartbeats. by rewrite map_app, List.filter_app. Qed.

Lemma plain_event_not_heartbeat p m : is_heartbeat (plain_event_data p m) = false.
Proof.
  unfold plain_event_data. destruct (p =? 100); [|destruct (p =? -1)]; done.
Qed.

Lemma plain_event_terminal p m :
  terminal (plain_event_data p m) = (p =? 100) || (p =? -1).
Proof.
  unfold plain_event_data. destruct (p =? 100); [|destruct (p =? -1)]; done.
Qed.

Lemma heartbeat_is_heartbeat t : is_heartbeat (heartbeat_at iso t) = true.
Proof. reflexivity. Qed.

(** One turn of the loop, the consumer staying. *)
Lemma stream_iteration_exact (timer : Z) (st : gstate) (o : option json)
    (w' : world) :
  closing st = None →
  await_queue id (script (wd st)) 15 (wd st) = (o, w') →
  stream_iteration iso id timer st
  = match o with
    | None =>
        (Ok (if 300 <=? timer + 15 then inr tt else inl (timer + 15)),
         {| wd := w'; closing := None;
            out := out st
                   ++ (now (sh w'), heartbeat_at iso (now (sh w')))
                      :: (if 300 <=? timer + 15
                          then [(now (sh w'), inactivity_error)] else []) |})
    | Some e =>
        (Ok (if terminal e then inr tt else inl timer),
         {| wd := w'; closing := None; out := out st ++ [(now (sh w'), e)] |})
    end.
Proof.
  intros Hcl Hawait.
  unfold stream_iteration, gtry_except, gbind, wait_for_queue_get, yield,
    get_shared, gret. rewrite Hcl, Hawait.
  destruct o as [e|]; cbn.
  - fold (terminal e). by destruct (terminal e).
  - destruct (300 <=? timer + 15); cbn; [|done]. by rewrite <- app_assoc.
Qed.

Lemma stream_loop_relays :
  ∀ (fuel k : nat) (st : gstate),
    closing st = None →
    running (wd st) = Some (stream_task id rq) →
    active_connections (sh (wd st)) !! id = Some [] →
    (k < 20)%nat →
    (length (script (wd st)) + (20 - k) ≤ fuel)%nat →
    ∃ st' evs n tail,
      while fuel (stream_iteration iso id) (15 * Z.of_nat k) st = (Ok tt, st')
      ∧ out st' = out st ++ evs
      ∧ same_shape id (sh (wd st)) (sh (wd st'))
      ∧ without_heartbeats evs
        = (plain_event_of <$> take n (script (wd st))) ++ tail
      ∧ (tail = [] ∨ tail = [inactivity_error])
      ∧ (Forall (λ c, 0 ≤ fst c) (script (wd st)) →
         now (sh (wd st'))
         ≤ now (sh (wd st)) + elapsed (script (wd st)) + 15 * Z.of_nat (20 - k)).
Proof.
  induction fuel as [|fuel IH]; intros k st Hcl Hrun Hq Hk Hfuel; [lia|].
  cbn [while]. unfold gbind at 1.
  assert (Hnext : 15 * Z.of_nat k + 15 = 15 * Z.of_nat (S k)) by lia.
  assert (Hbeat : ∀ (l : timeline) w',
            active_connections (sh (wd st)) !! id = Some [] →
            sh w' = advance 15 (sh (wd st)) → running w' = running (wd st) →
            script w' = postponed 15 l → script (wd st) = l →
            (l ≠ [] → Forall (λ c, 0 ≤ fst c) l → Forall (λ c, 0 ≤ fst c) (postponed 15 l)) →
            await_queue id l 15 (wd st) = (None, w') →
            ∃ st' evs n tail,
              (let (r, st'0) := stream_iteration iso id (15 * Z.of_nat k) st in
               match r with
               | Ok a => match a with
                         | inl s' => while fuel (stream_iteration iso id) s'
                         | inr v => gret v
                         end st'0
               | Exc e => (Exc e, st'0)
               | Hung => (Hung, st'0)
               end) = (Ok tt, st')
              ∧ out st' = out st ++ evs
              ∧ same_shape id (sh (wd st)) (sh (wd st'))
              ∧ without_heartbeats evs = (plain_event_of <$> take n l) ++ tail
              ∧ (tail = [] ∨ tail = [inactivity_error])
              ∧ (Forall (λ c, 0 ≤ fst c) l →
                 now (sh (wd st'))
                 ≤ now (sh (wd st)) + elapsed l + 15 * Z.of_nat (20 - k))).
  { intros l w' _ Hsh Hr Hsc Hs Hpos Haw.
    rewrite <- Hs in Haw.
    rewrite (stream_iteration_exact _ st None w' Hcl Haw).
    destruct (Z.leb_spec 300 (15 * Z.of_nat k + 15)) as [Hc|Hc].
    - assert (k = 19%nat) as -> by lia.
      eexists _, _, 0%nat, [inactivity_error]. split; [reflexivity|]. cbn.
      split; [done|]. split; [by rewrite Hsh|]. split; [done|]. split; [auto|].
      intros Hnn. apply elapsed_nonneg in Hnn. rewrite Hsh. cbn.
      lia.
    - set (st1 := {| wd := w'; closing := None; out := _ |}).
      destruct (IH (S k) st1) as (st' & evs & n & tail & Hw & Hout & Hshape & Hrel & Htail & Htime);
        [ done | subst st1; cbn; congruence
        | subst st1; cbn; by rewrite Hsh
        | lia
        | subst st1; cbn; rewrite Hsc; rewrite Hs in Hfuel;
          destruct l as [|[]]; cbn in *; lia |].
      rewrite Hnext, Hw.
      exists st', ((now (sh w'), heartbeat_at iso (now (sh w'))) :: evs), n, tail.
      split; [done|].
      split; [rewrite Hout; subst st1; cbn; by rewrite <- app_assoc|].
      split; [eapply same_shape_trans; [|exact Hshape]; subst st1; cbn; by rewrite Hsh|].
      split.
      { change (without_heartbeats (?x :: evs)) with (without_heartbeats evs).
        rewrite Hrel. subst st1. cbn [wd]. rewrite Hsc.
        by rewrite plain_event_of_postponed. }
      split; [done|].
      intros Hnn. subst st1. cbn [wd] in Htime. rewrite Hsc, Hsh in Htime.
      cbn [now advance] in Htime.
      destruct l as [|c l'].
      + specialize (Htime (Forall_nil_2 _)). cbn in *. unfold elapsed in *. cbn in *. lia.
      + specialize (Htime (Hpos ltac:(done) Hnn)).
        rewrite elapsed_postponed in Htime by done. lia. }
  destruct (script (wd st)) as [|[d [p m]] rest] eqn:Hs.
  - destruct (await_queue_times_out [] (wd st) Hq I) as (w' & Haw & Hsh & Hr & Hsc).
    by apply (Hbeat [] w').
  - destruct (Z.ltb_spec d 15) as [Hd|Hd].
    + destruct (await_queue_plain_event d p m rest (wd st) Hrun Hq Hd)
        as (w' & Haw & Hnow & Hq' & Hr & Hsc).
      rewrite <- Hs in Haw.
      rewrite (stream_iteration_exact _ st _ w' Hcl Haw).
      rewrite plain_event_terminal.
      assert (Hshape1 : same_shape id (sh (wd st)) (sh w')).
      { pose proof (await_queue_spec any_event id (script (wd st)) 15 (wd st)) as H.
        rewrite Haw in H. apply H; [|apply Forall_any].
        intros c s. unfold fire. cbn. rewrite Hrun. cbn.
        destruct (progress_callback_cases id c.1 c.2 s) as [[_ ->] | (e & _ & ? & ->)];
          [by left | right; by exists e]. }
      destruct ((p =? 100) || (p =? -1)) eqn:Ht.
      * eexists _, _, 1%nat, []. split; [reflexivity|]. cbn [out wd].
        split; [done|]. split; [done|].
        split.
        { unfold without_heartbeats. cbn [map snd List.filter].
          rewrite plain_event_not_heartbeat. done. }
        split; [auto|].
        intros Hnn. apply Forall_cons in Hnn as [Hd0 Hnn].
        apply elapsed_nonneg in Hnn. rewrite Hnow. unfold elapsed in *. cbn in *. lia.
      * set (st1 := {| wd := w'; closing := None; out := _ |}).
        destruct (IH k st1) as (st' & evs & n & tail & Hw & Hout & Hshape & Hrel & Htail & Htime);
          [ done | subst st1; cbn; congruence | subst st1; cbn; done | done
          | subst st1; cbn; rewrite Hsc; cbn in Hfuel; lia |].
        rewrite Hw.
        exists st', ((now (sh w'), plain_event_data p m) :: evs), (S n), tail.
        split; [done|].
        split; [rewrite Hout; subst st1; cbn; by rewrite <- app_assoc|].
        split; [by eapply same_shape_trans|].
        split.
        { unfold without_heartbeats in *. cbn [map snd List.filter].
          rewrite plain_event_not_heartbeat. cbn [negb].
          rewrite Hrel. subst st1. cbn [wd]. by rewrite Hsc. }
        split; [done|].
        intros Hnn. apply Forall_cons in Hnn as [Hd0 Hnn].
        specialize (Htime ltac:(subst st1; cbn; by rewrite Hsc)).
        subst st1. cbn [wd] in Htime. rewrite Hsc, Hnow in Htime.
        unfold elapsed in *. cbn in *. lia.
    + destruct (await_queue_times_out ((d, (p, m)) :: rest) (wd st) Hq Hd)
        as (w' & Haw & Hsh & Hr & Hsc).
      apply (Hbeat ((d, (p, m)) :: rest) w'); try done.
      intros _ Hnn. apply Forall_cons in Hnn as [Hd0 Hnn].
      apply Forall_cons. split; [cbn; lia | done].
Qed.

End PlainRelay.

Lemma finalizer_now (id : string) (st : gstate) :
  now (sh (wd (snd (finalizer id st)))) = now (sh (wd st)).
Proof.
  unfold finalizer, gbind, get_shared, gwhen, update_shared, delitem.
  destruct (contains id (sh (wd st))); [|done].
  by destruct (active_connections (sh (wd st)) !! id).
Qed.

(** The plain stream, the consumer staying and the pool open. *)
Lemma stream_conversion_relays (rw : ConversionTask callback → timeline)
    (iso : Z → string) (id : string) (rq : ConversionRequest) (fuel : nat)
    (st : gstate) :
  closing st = None → pool_open (wd st) = true →
  (length (rw (stream_task id rq)) + 20 ≤ fuel)%nat →
  ∃ st' evs n tail,
    stream_conversion rw iso id rq fuel st = (Ok tt, st')
    ∧ out st' = out st ++ (now (sh (wd st)), initial_progress) :: evs
    ∧ without_heartbeats evs
      = (plain_event_of <$> take n (rw (stream_task id rq))) ++ tail
    ∧ (tail = [] ∨ tail = [inactivity_error])
    ∧ (Forall (λ c, 0 ≤ fst c) (rw (stream_task id rq)) →
       now (sh (wd st'))
       ≤ now (sh (wd st)) + elapsed (rw (stream_task id rq)) + 300).
Proof.
  intros Hcl Hp Hfuel.
  unfold stream_conversion. unfold gbind at 1. unfold update_shared at 1.
  rewrite event_generator_unfold.
  unfold gtry_finally, gtry_except at 1.
  unfold gbind at 1. unfold yield at 1. cbn [closing set_world]. rewrite Hcl.
  unfold gbind at 1. unfold submit_task at 1. cbn [wd set_world with_sh pool_open].
  rewrite Hp.
  set (st2 := set_world _ _).
  destruct (stream_loop_relays iso id rq fuel 0 st2)
    as (st3 & evs & n & tail & Hw & Hout & Hshape & Hrel & Htail & Htime);
    [ done | done | subst st2; cbn; by rewrite lookup_insert_eq | lia
    | subst st2; cbn; lia |].
  change (15 * Z.of_nat 0) with 0 in Hw. rewrite Hw.
  assert (Hs3 : is_Some (active_connections (sh (wd st3)) !! id)).
  { apply Hshape. subst st2. cbn. rewrite lookup_insert_eq. eauto. }
  destruct (finalizer_spec id st3 Hs3) as (st' & Hfin & Ho & _ & _ & _).
  pose proof (finalizer_now id st3) as Hnow. rewrite Hfin in *. cbn [snd] in Hnow.
  exists st', evs, n, tail. split; [done|].
  split; [rewrite Ho, Hout; subst st2; cbn; by rewrite <- app_assoc|].
  split; [done|]. split; [done|].
  intros Hnn. rewrite Hnow. specialize (Htime Hnn). subst st2.
  cbn [wd set_world script sh now with_sh setitem] in Htime. lia.
Qed.


(** X21.  A plain stream whose consumer stays returns at the latest
    300 seconds after the time the worker takes for all its invocations. *)
Theorem plain_stream_ends_in_time
    (rw : ConversionTask callback → timeline) (iso : Z → string)
    (id : string) (rq : ConversionRequest) (fuel : nat) (st : gstate) :
  closing st = None → pool_open (wd st) = true →
  (length (rw (stream_task id rq)) + 20 ≤ fuel)%nat →
  Forall (λ c, 0 ≤ fst c) (rw (stream_task id rq)) →
  fst (stream_conversion rw iso id rq fuel st) = Ok tt
  ∧ now (sh (wd (snd (stream_conversion rw iso id rq fuel st))))
    ≤ now (sh (wd st)) + elapsed (rw (stream_task id rq)) + 300.
Proof.
  intros Hcl Hp Hfuel Hnn.
  destruct (stream_conversion_relays rw iso id rq fuel st Hcl Hp Hfuel)
    as (st' & evs & n & tail & -> & _ & _ & _ & Htime).
  split; [done|]. by apply Htime.
Qed.

(** ** The worker and the protocol-wrapped stream together *)



(** * The statements at concrete inputs *)

Lemma C1_exactly_one_terminal_event_witness :
  pool_open (wd listening) = true
  ∧ (length queued_then_slow + 20 ≤ 30)%nat
  ∧ (length queued_then_slow + 1 ≤ 30)%nat
  ∧ ((∃ r st' evs,
        stream_conversion (fun _ => queued_then_slow) iso0 "e1" html_request 30
          listening = (r, st')
        ∧ out st' = out listening ++ evs
        ∧ quiet_until_last evs
        ∧ (closing listening = None →
           r = Ok tt
           ∧ ∃ pre x, evs = pre ++ [x]
                      ∧ Forall (λ y, terminal (snd y) = false) pre
                      ∧ terminal (snd x) = true
                      ∧ (worker_event (snd x) ∨ snd x = inactivity_error)))
     ∧ (closing listening = None →
        ∃ st' evs,
          mcp_convert_generator (fun _ => queued_then_slow) iso0 "e1"
            html_request 30 listening = (Ok tt, st')
          ∧ out st' = out listening ++ evs
          ∧ ends_with_single_terminal mcp_terminal evs)).
Proof.
  assert (H1 : pool_open (wd listening) = true) by reflexivity.
  assert (H2 : (length queued_then_slow + 20 ≤ 30)%nat) by (cbn; lia).
  assert (H3 : (length queued_then_slow + 1 ≤ 30)%nat) by (cbn; lia).
  exact (conj H1 (conj H2 (conj H3
    (C1_exactly_one_terminal_event (fun _ => queued_then_slow) iso0 "e1"
       html_request 30 listening H1 H2 H3)))).
Defined.



Lemma C4_heartbeat_accounting_witness :
  closing listening = None
  ∧ await_queue "e1" (script (wd listening)) 15 (wd listening)
    = (None, with_script [] (with_sh (advance 15 empty_shared) idle_world))
  ∧ (stream_iteration iso0 "e1" 285 listening
     = (Ok (if 300 <=? 285 + 15 then inr tt else inl (285 + 15)),
        {| wd := with_script [] (with_sh (advance 15 empty_shared) idle_world);
           closing := None;
           out := out listening
                  ++ (15, heartbeat_at iso0 15)
                     :: (if 300 <=? 285 + 15
                         then [(15, inactivity_error)] else []) |})
     ∧ ∀ rw rq fuel,
         pool_open (wd listening) = true →
         (length (rw (stream_task "e1" rq)) + 20 ≤ fuel)%nat →
         ∃ st' evs,
           stream_conversion rw iso0 "e1" rq fuel listening = (Ok tt, st')
           ∧ out st' = out listening ++ evs
           ∧ (heartbeats evs ≤ 20)%nat
           ∧ ∀ t, last evs = Some (t, inactivity_error) →
                  heartbeats evs = 20%nat).
Proof.
  assert (H1 : closing listening = None) by reflexivity.
  assert (H2 : await_queue "e1" (script (wd listening)) 15 (wd listening)
               = (None, with_script [] (with_sh (advance 15 empty_shared) idle_world)))
    by reflexivity.
  exact (conj H1 (conj H2
    (C4_heartbeat_accounting iso0 "e1" 285 listening None _ H1 H2))).
Defined.


Lemma C6_push_without_channel_witness :
  active_connections empty_shared !! "gone" = None
  ∧ progress_callback "gone" 100 "<h1>Hi</h1>" empty_shared = inr empty_shared
  ∧ ∀ created_at start_time id',
      mcp_progress_callback "gone" created_at start_time id' 100 "<h1>Hi</h1>"
        empty_shared
      = inr empty_shared.
Proof.
  assert (H : active_connections empty_shared !! "gone" = None) by reflexivity.
  exact (conj H (C6_push_without_channel empty_shared "gone" 100 "<h1>Hi</h1>" H)).
Defined.

Lemma C8_registry_entry_lifecycle_witness :
  (length queued_then_slow + 20 ≤ 30)%nat
  ∧ ∃ r st',
      stream_conversion (fun _ => queued_then_slow) iso0 "e1" html_request 30
        leaving = (r, st')
      ∧ (r = Ok tt ∨ r = Exc GeneratorExit ∨ r = Exc CancelledError)
      ∧ history (sh (wd st'))
        = history (sh (wd leaving)) ++ [Inserted "e1"; Removed "e1"]
      ∧ active_connections (sh (wd st')) !! "e1" = None
      ∧ active_connections (sh (wd st'))
        = delete "e1" (active_connections (sh (wd leaving))).
Proof.
  assert (H : (length queued_then_slow + 20 ≤ 30)%nat) by (cbn; lia).
  exact (conj H
    (C8_registry_entry_lifecycle (fun _ => queued_then_slow) iso0 "e1"
       html_request 30 leaving H)).
Defined.


(** ** The further properties at concrete inputs *)

Lemma accepted_request_revalidates_witness :
  Forall (λ f, ascii_lower f = f) supported_formats
  ∧ ConversionRequest__init__ ascii_lower supported_listing (Some "# Hi") None
      "Markdown" "PDF" (Some "out.pdf")
    = inr {| contents := Some "# Hi"; input_file := None;
             input_format := "markdown"; output_format := "pdf";
             output_file := Some "out.pdf" |}
  ∧ ConversionRequest__init__ ascii_lower supported_listing (Some "# Hi") None
      "markdown" "pdf" (Some "out.pdf")
    = inr {| contents := Some "# Hi"; input_file := None;
             input_format := "markdown"; output_format := "pdf";
             output_file := Some "out.pdf" |}.
Proof.
  assert (Hl : Forall (λ f, ascii_lower f = f) supported_formats)
    by (repeat constructor).
  assert (H : ConversionRequest__init__ ascii_lower supported_listing
                (Some "# Hi") None "Markdown" "PDF" (Some "out.pdf")
              = inr {| contents := Some "# Hi"; input_file := None;
                       input_format := "markdown"; output_format := "pdf";
                       output_file := Some "out.pdf" |})
    by (vm_compute; reflexivity).
  split; [exact Hl|]. split; [exact H|].
  exact (accepted_request_revalidates ascii_lower supported_listing _ _ _ _ _ _
           Hl H).
Defined.


Lemma rejection_errors_witness :
  ConversionRequest__init__ ascii_lower supported_listing None None
    "markdown" "pdf" None
  = inl [("output_file", ValueError "output_file is required for pdf format")]
  ∧ (1 ≤ 1 ≤ 2)%nat
  ∧ ["output_file"] ⊆ ["input_format"; "output_format"; "output_file"]
  ∧ ("input_format" ∈ ["output_file"] ↔ ascii_lower "markdown" ∉ supported_formats)
  ∧ ("output_format" ∈ ["output_file"] ↔ ascii_lower "pdf" ∉ supported_formats)
  ∧ ("output_file" ∈ ["output_file"]
     ↔ ascii_lower "pdf" ∈ supported_formats
       ∧ ascii_lower "pdf" ∈ advanced_formats ∧ truthy None = false).
Proof.
  assert (H : ConversionRequest__init__ ascii_lower supported_listing None None
                "markdown" "pdf" None
              = inl [("output_file",
                      ValueError "output_file is required for pdf format")])
    by (vm_compute; reflexivity).
  exact (conj H
    (rejection_errors ascii_lower supported_listing None None "markdown" "pdf"
       None _ H)).
Defined.


Lemma result_by_mode_witness :
  fst (_process_conversion local_disk to_html (fresh ∅)) = inr "<h1>Hi</h1>"
  ∧ convert_text local_disk (Some "# Hi") "html" "markdown" [] ∅
    = inr ("<h1>Hi</h1>", fs (snd (_process_conversion local_disk to_html (fresh ∅)))).
Proof.
  assert (H : fst (_process_conversion local_disk to_html (fresh ∅))
              = inr "<h1>Hi</h1>") by reflexivity.
  exact (conj H (result_by_mode local_disk unit to_html ∅ "<h1>Hi</h1>" H)).
Defined.


Lemma convert_contents_success_witness :
  fst (_process_conversion local_disk (convert_task "7f0c" html_request) (fresh ∅))
  = inr "<h1>Hi</h1>"
  ∧ convert_contents local_disk "7f0c" html_request true worker_pool ∅
    = (Some (inr (success_response "Conversion complete")),
       _task_done "7f0c"
         (Worker.submit_task (convert_task "7f0c" html_request) worker_pool),
       fs (snd (_process_conversion local_disk
                  (convert_task "7f0c" html_request) (fresh ∅)))).
Proof.
  assert (H : fst (_process_conversion local_disk
                     (convert_task "7f0c" html_request) (fresh ∅))
              = inr "<h1>Hi</h1>") by reflexivity.
  exact (conj H
    (convert_contents_success local_disk "7f0c" html_request worker_pool ∅
       "<h1>Hi</h1>" H)).
Defined.

Lemma convert_contents_failure_witness :
  fst (_process_conversion broken_engine (convert_task "7f0c" html_request)
         (fresh ∅))
  = inl (ValueError ("Error during conversion: " +:+ "Pandoc died with exitcode 1"))
  ∧ convert_contents broken_engine "7f0c" html_request true worker_pool ∅
    = (Some (inr (error_response ("Error: " +:+ "Pandoc died with exitcode 1"))),
       _task_done "7f0c"
         (Worker.submit_task (convert_task "7f0c" html_request) worker_pool),
       fs (snd (_process_conversion broken_engine
                  (convert_task "7f0c" html_request) (fresh ∅))))
  ∧ convert_contents broken_engine "7f0c" html_request false worker_pool ∅
    = (Some (inr (error_response "cannot schedule new futures after shutdown")),
       worker_pool, ∅).
Proof.
  assert (H : fst (_process_conversion broken_engine
                     (convert_task "7f0c" html_request) (fresh ∅))
              = inl (ValueError ("Error during conversion: "
                                 +:+ "Pandoc died with exitcode 1")))
    by reflexivity.
  exact (conj H
    (convert_contents_failure broken_engine "7f0c" html_request worker_pool ∅
       "Pandoc died with exitcode 1" H)).
Defined.

Lemma unknown_tool_single_error_witness :
  truthy (Some "summarise") = true
  ∧ Some "summarise" ≠ Some "convert-contents"
  ∧ ∃ g, mcp_sse_endpoint (fun _ => []) iso0 ascii_lower supported_listing
           no_discovery_dict "e1" 10 (Some "summarise") (Some "# Hi") None None
           None = inr g
         ∧ wd (snd (g listening)) = wd listening
         ∧ out (snd (g listening))
           = out listening
             ++ [(now (sh (wd listening)),
                  unknown_tool_event "e1" (iso0 (now (sh (wd listening))))
                    (Some "summarise"))]
         ∧ (closing listening = None → fst (g listening) = Ok tt).
Proof.
  assert (H1 : truthy (Some "summarise") = true) by reflexivity.
  assert (H2 : Some "summarise" ≠ Some "convert-contents") by discriminate.
  exact (conj H1 (conj H2
    (unknown_tool_single_error (fun _ => []) iso0 ascii_lower supported_listing
       no_discovery_dict "e1" 10 (Some "summarise") (Some "# Hi") None None None
       listening H1 H2))).
Defined.

Lemma discovery_without_tool_witness :
  truthy (Some "") = false
  ∧ ∃ g, mcp_sse_endpoint (fun _ => []) iso0 ascii_lower supported_listing
           no_discovery_dict "e1" 10 (Some "") (Some "# Hi") None None None
         = inr g
         ∧ wd (snd (g listening)) = wd listening
         ∧ out (snd (g listening))
           = out listening
             ++ [(now (sh (wd listening)),
                  JObj [("type", JStr "discovery");
                        ("data", no_discovery_dict tools_discovery)])]
         ∧ (closing listening = None → fst (g listening) = Ok tt).
Proof.
  assert (H : truthy (Some "") = false) by reflexivity.
  exact (conj H
    (discovery_without_tool (fun _ => []) iso0 ascii_lower supported_listing
       no_discovery_dict "e1" 10 (Some "") (Some "# Hi") None None None
       listening H)).
Defined.

Lemma advertised_interface_witness :
  Forall (λ f, ascii_lower f = f) supported_formats
  ∧ "rst" ∈ advertised_values "input_format"
  ∧ "pdf" ∈ advertised_values "output_format"
  ∧ ("pdf" ∈ advanced_formats → truthy (Some "out.pdf") = true)
  ∧ Forall (λ t, mcp_sse_endpoint (fun _ => []) iso0 ascii_lower
                   supported_listing no_discovery_dict "e1" 10
                   (Some (tool_name t)) (Some "Hi") (Some "rst") (Some "pdf")
                   (Some "out.pdf")
                 = inr (mcp_convert_generator (fun _ => []) iso0 "e1"
                          {| contents := Some "Hi"; input_file := None;
                             input_format := "rst"; output_format := "pdf";
                             output_file := Some "out.pdf" |} 10))
      (tools tools_discovery)
  ∧ (∀ tool,
       mcp_sse_endpoint (fun _ => []) iso0 ascii_lower supported_listing
         no_discovery_dict "e1" 10 tool (Some "Hi") None None (Some "out.pdf")
       = mcp_sse_endpoint (fun _ => []) iso0 ascii_lower supported_listing
           no_discovery_dict "e1" 10 tool (Some "Hi")
           (advertised_default "input_format")
           (advertised_default "output_format") (Some "out.pdf")).
Proof.
  assert (H1 : Forall (λ f, ascii_lower f = f) supported_formats)
    by (repeat constructor).
  assert (H2 : "rst" ∈ advertised_values "input_format")
    by (apply (bool_decide_unpack _); vm_compute; exact I).
  assert (H3 : "pdf" ∈ advertised_values "output_format")
    by (apply (bool_decide_unpack _); vm_compute; exact I).
  assert (H4 : "pdf" ∈ advanced_formats → truthy (Some "out.pdf") = true)
    by (intros _; reflexivity).
  exact (conj H1 (conj H2 (conj H3 (conj H4
    (advertised_interface (fun _ => []) iso0 ascii_lower supported_listing
       no_discovery_dict "e1" 10 (Some "Hi") (Some "out.pdf") "rst" "pdf"
       H1 H2 H3 H4))))).
Defined.

Lemma protocol_conversion_reads_no_file_witness :
  mcp_sse_endpoint (fun _ => []) iso0 ascii_lower supported_listing
    no_discovery_dict "e1" 10 (Some "convert-contents") (Some "# Hi") None
    (Some "DOCX") (Some "out.docx")
  = inr (mcp_convert_generator (fun _ => []) iso0 "e1"
           {| contents := Some "# Hi"; input_file := None;
              input_format := "markdown"; output_format := "docx";
              output_file := Some "out.docx" |} 10)
  ∧ ∃ rq,
      mcp_convert_generator (fun _ => []) iso0 "e1"
        {| contents := Some "# Hi"; input_file := None;
           input_format := "markdown"; output_format := "docx";
           output_file := Some "out.docx" |} 10
      = mcp_convert_generator (fun _ => []) iso0 "e1" rq 10
      ∧ contents rq = Some "# Hi" ∧ input_file rq = None
      ∧ output_file rq = Some "out.docx"
      ∧ input_format rq = ascii_lower (or_else None "markdown")
      ∧ output_format rq = ascii_lower (or_else (Some "DOCX") "html")
      ∧ ∀ (P : Platform) (CB : Type) (cb : CB) (d0 : gset string)
          (call : engine_call),
          call ∈ engine_calls
                   (log (snd (_process_conversion P
                                {| request := rq; task_id := "e1";
                                   Worker.progress_callback := cb |}
                                (fresh d0)))) →
          call = ConvertText (Some "# Hi") (output_format rq) (input_format rq)
                   (extra_args_for rq)
          ∨ ∃ temp_path,
              NamedTemporaryFile P ("." +:+ input_format rq) d0 = inr temp_path
              ∧ call = ConvertFile temp_path (output_format rq)
                         (Some "out.docx") (extra_args_for rq).
Proof.
  assert (H : mcp_sse_endpoint (fun _ => []) iso0 ascii_lower supported_listing
                no_discovery_dict "e1" 10 (Some "convert-contents")
                (Some "# Hi") None (Some "DOCX") (Some "out.docx")
              = inr (mcp_convert_generator (fun _ => []) iso0 "e1"
                       {| contents := Some "# Hi"; input_file := None;
                          input_format := "markdown"; output_format := "docx";
                          output_file := Some "out.docx" |} 10))
    by reflexivity.
  exact (conj H
    (protocol_conversion_reads_no_file (fun _ => []) iso0 ascii_lower
       supported_listing no_discovery_dict "e1" 10 (Some "# Hi") None
       (Some "DOCX") (Some "out.docx") _ H)).
Defined.

Lemma protocol_registry_lifecycle_witness :
  (length queued_then_slow + 1 ≤ 30)%nat
  ∧ ∃ r st',
      mcp_convert_generator (fun _ => queued_then_slow) iso0 "e1" html_request 30
        leaving = (r, st')
      ∧ (r = Ok tt ∨ r = Exc GeneratorExit ∨ r = Exc CancelledError)
      ∧ (closing leaving = None → r = Ok tt)
      ∧ history (sh (wd st'))
        = history (sh (wd leaving)) ++ [Inserted "e1"; Removed "e1"]
      ∧ active_connections (sh (wd st')) !! "e1" = None
      ∧ active_connections (sh (wd st'))
        = delete "e1" (active_connections (sh (wd leaving))).
Proof.
  assert (H : (length queued_then_slow + 1 ≤ 30)%nat) by (cbn; lia).
  exact (conj H
    (protocol_registry_lifecycle (fun _ => queued_then_slow) iso0 "e1"
       html_request 30 leaving H)).
Defined.

Lemma protocol_nothing_after_terminal_witness :
  (length queued_then_slow + 1 ≤ 30)%nat
  ∧ ∃ evs,
      out (snd (mcp_convert_generator (fun _ => queued_then_slow) iso0 "e1"
                  html_request 30 leaving))
      = out leaving ++ evs
      ∧ mcp_quiet_until_last evs
      ∧ head evs = Some (now (sh (wd leaving)),
                         mcp_initial_event "e1" (iso0 (now (sh (wd leaving))))).
Proof.
  assert (H : (length queued_then_slow + 1 ≤ 30)%nat) by (cbn; lia).
  exact (conj H
    (protocol_nothing_after_terminal (fun _ => queued_then_slow) iso0 "e1"
       html_request 30 leaving H)).
Defined.

Lemma streams_with_pool_shut_down_witness :
  closing refusing = None
  ∧ pool_open (wd refusing) = false
  ∧ (∃ st', stream_conversion (fun _ => queued_then_slow) iso0 "e1"
              html_request 30 refusing = (Ok tt, st')
            ∧ out st'
              = out refusing
                ++ [(now (sh (wd refusing)), initial_progress);
                    (now (sh (wd refusing)), generator_error pool_shut_down)]
            ∧ running (wd st') = running (wd refusing)
            ∧ active_connections (sh (wd st'))
              = delete "e1" (active_connections (sh (wd refusing))))
  ∧ (∃ st', mcp_convert_generator (fun _ => queued_then_slow) iso0 "e1"
              html_request 30 refusing = (Ok tt, st')
            ∧ out st'
              = out refusing
                ++ [(now (sh (wd refusing)),
                     mcp_initial_event "e1" (iso0 (now (sh (wd refusing)))));
                    (now (sh (wd refusing)),
                     mcp_error_event "e1" (iso0 (now (sh (wd refusing))))
                       (now (sh (wd refusing))) (now (sh (wd refusing)))
                       (str pool_shut_down))]
            ∧ running (wd st') = running (wd refusing)
            ∧ active_connections (sh (wd st'))
              = delete "e1" (active_connections (sh (wd refusing)))).
Proof.
  assert (H1 : closing refusing = None) by reflexivity.
  assert (H2 : pool_open (wd refusing) = false) by reflexivity.
  exact (conj H1 (conj H2
    (streams_with_pool_shut_down (fun _ => queued_then_slow) iso0 "e1"
       html_request 30 refusing H1 H2))).
Defined.

Lemma late_callbacks_dropped_witness :
  (length queued_then_slow + 20 ≤ 30)%nat
  ∧ (length queued_then_slow + 1 ≤ 30)%nat
  ∧ (let s := sh (wd (snd (stream_conversion (fun _ => queued_then_slow) iso0
                             "e1" html_request 30 leaving))) in
     Worker.progress_callback (stream_task "e1" html_request) "e1" 100
       "Conversion complete" s = inr s)
  ∧ (let s := sh (wd (snd (mcp_convert_generator (fun _ => queued_then_slow)
                             iso0 "e1" html_request 30 leaving))) in
     Worker.progress_callback
       (mcp_task "e1" html_request (iso0 (now (sh (wd leaving))))
          (now (sh (wd leaving)))) "e1" 100 "Conversion complete" s
     = inr s).
Proof.
  assert (H1 : (length queued_then_slow + 20 ≤ 30)%nat) by (cbn; lia).
  assert (H2 : (length queued_then_slow + 1 ≤ 30)%nat) by (cbn; lia).
  exact (conj H1 (conj H2
    (late_callbacks_dropped (fun _ => queued_then_slow) iso0 "e1" html_request
       30 leaving 100 "Conversion complete" H1 H2))).
Defined.


Lemma plain_stream_ends_in_time_witness :
  closing listening = None
  ∧ pool_open (wd listening) = true
  ∧ (length queued_then_slow + 20 ≤ 30)%nat
  ∧ Forall (λ c, 0 ≤ fst c) queued_then_slow
  ∧ fst (stream_conversion (fun _ => queued_then_slow) iso0 "e1" html_request 30
           listening) = Ok tt
  ∧ now (sh (wd (snd (stream_conversion (fun _ => queued_then_slow) iso0 "e1"
                        html_request 30 listening))))
    ≤ now (sh (wd listening)) + elapsed queued_then_slow + 300.
Proof.
  assert (H1 : closing listening = None) by reflexivity.
  assert (H2 : pool_open (wd listening) = true) by reflexivity.
  assert (H3 : (length queued_then_slow + 20 ≤ 30)%nat) by (cbn; lia).
  assert (H4 : Forall (λ c, 0 ≤ fst c) queued_then_slow)
    by (repeat constructor; cbn; lia).
  exact (conj H1 (conj H2 (conj H3 (conj H4
    (plain_stream_ends_in_time (fun _ => queued_then_slow) iso0 "e1"
       html_request 30 listening H1 H2 H3 H4))))).
Defined.


